(** * LakehouseSyncEndpoint.py: the lakehouse SQL-endpoint synchroniser

    A shallow embedding of [LakehouseSyncManager] (time localizer, endpoint
    resolver, sync initiator, poller, reporter and orchestrator) together
    with the properties its specification states about it.

    Layout: [Py] models the Python values and faults the program handles,
    [Datetime] the parts of [datetime] and [pytz] that [convert_to_spain]
    calls, [Sync] the class itself, method by method, and [Spec] the words
    of the specification and the runs used as examples.  The theorems
    follow the definitions. *)

From Stdlib Require Import ZArith List String Ascii Bool Lia DecimalString.
Import ListNotations.
Open Scope string_scope.
Open Scope Z_scope.

(** ** Python values *)

Module Py.

(** What [response.json()] can return. Decoded objects keep their keys in
    document order; a decoded object has no duplicate key, and [lookup]
    reads the first binding. *)
#[warnings="-register-all"]
Inductive json : Type :=
| JNull
| JBool (b : bool)
| JInt (n : Z)
| JFloat (lexeme : string)
| JStr (s : string)
| JArr (items : list json)
| JObj (fields : list (string * json)).

Inductive pytype := NoneType | TBool | TInt | TFloat | TStr | TList | TDict.

Definition type_of (v : json) : pytype :=
  match v with
  | JNull => NoneType | JBool _ => TBool | JInt _ => TInt | JFloat _ => TFloat
  | JStr _ => TStr | JArr _ => TList | JObj _ => TDict
  end.

(** Exceptions, all of them subclasses of [Exception].  The first two are
    the ones [sempy.fabric.exceptions] exports and the client may raise,
    [HTTPError] is what [raise_for_status] raises, the others are raised by
    the interpreter and by [datetime].  An exception carries what it was
    raised with; the text [str] makes of it belongs to the runtime.
    Interrupts ([KeyboardInterrupt], [SystemExit]) are not part of the
    model. *)
Inductive exn : Type :=
| FabricHTTPException (detail : string)
| WorkspaceNotFoundException (detail : string)
| HTTPError (status : Z)
| JSONDecodeError
| KeyError (key : json)
| IndexError (operand : pytype)
| TypeError (operation : string) (operand : pytype)
| AttributeError (attribute : string) (operand : pytype)
| ValueError (what : string) (arg : string)
| OverflowError (what : string)
| UnknownTimeZoneError (zone : string)
| OtherException (class detail : string).

Inductive result (A : Type) : Type :=
| Ok (a : A)
| Err (e : exn).
Arguments Ok {A} a.
Arguments Err {A} e.

Definition rbind {A B} (r : result A) (k : A -> result B) : result B :=
  match r with Ok a => k a | Err e => Err e end.

Fixpoint lookup (k : string) (fields : list (string * json)) : option json :=
  match fields with
  | [] => None
  | (k', v) :: rest => if String.eqb k' k then Some v else lookup k rest
  end.

(** [obj[key]] with a string key. *)
Definition getitem (obj : json) (key : string) : result json :=
  match obj with
  | JObj fields =>
      match lookup key fields with
      | Some v => Ok v
      | None => Err (KeyError (JStr key))
      end
  | JArr _ | JStr _ => Err (TypeError "indices must be integers" (type_of obj))
  | _ => Err (TypeError "not subscriptable" (type_of obj))
  end.

(** [obj[0]]. *)
Definition getitem0 (obj : json) : result json :=
  match obj with
  | JArr (x :: _) => Ok x
  | JArr [] => Err (IndexError TList)
  | JStr (String c _) => Ok (JStr (String c ""))
  | JStr EmptyString => Err (IndexError TStr)
  | JObj _ => Err (KeyError (JInt 0))
  | _ => Err (TypeError "not subscriptable" (type_of obj))
  end.

(** [obj.get(key, default)]: only dictionaries have it. *)
Definition dict_get (obj : json) (key : string) (default : json) : result json :=
  match obj with
  | JObj fields =>
      match lookup key fields with
      | Some v => Ok v
      | None => Ok default
      end
  | _ => Err (AttributeError "get" (type_of obj))
  end.

Fixpoint chars (s : string) : list json :=
  match s with
  | EmptyString => []
  | String c rest => JStr (String c "") :: chars rest
  end.

(** The elements a [for] loop draws from a value. *)
Definition iterate (obj : json) : result (list json) :=
  match obj with
  | JArr items => Ok items
  | JObj fields => Ok (map (fun kv => JStr (fst kv)) fields)
  | JStr s => Ok (chars s)
  | _ => Err (TypeError "not iterable" (type_of obj))
  end.

(** [v == s] for a string literal [s]. *)
Definition eq_str (v : json) (s : string) : bool :=
  match v with
  | JStr s' => String.eqb s' s
  | _ => false
  end.

(** [s.split('.')[0]]: the text before the first full stop. *)
Fixpoint before_dot (s : string) : string :=
  match s with
  | EmptyString => EmptyString
  | String c rest => if Ascii.eqb c "." then EmptyString else String c (before_dot rest)
  end.

Definition split_dot_0 (v : json) : result string :=
  match v with
  | JStr s => Ok (before_dot s)
  | _ => Err (AttributeError "split" (type_of v))
  end.

End Py.
Import Py.

Declare Scope res_scope.
Delimit Scope res_scope with res.
Notation "'let*' x ':=' c 'in' k" := (rbind c (fun x => k))
  (at level 61, x pattern, c at next level, right associativity) : res_scope.

(** ** [datetime] and [pytz]

    The calls [convert_to_spain] makes into the standard library and into
    [pytz], after the reference implementation in [Lib/datetime.py] of
    CPython 3.10 (Fabric runtime 1.2) and [pytz/tzinfo.py].  Durations
    ([timedelta]) are counted in microseconds. *)

Module Datetime.

Definition MINYEAR : Z := 1.
Definition MAXYEAR : Z := 9999.
Definition MAXORDINAL : Z := 3652059.

Definition timedelta := Z.
Definition us_per_second : Z := 1000000.
Definition us_per_day : Z := 86400 * us_per_second.
Definition seconds (n : Z) : timedelta := n * us_per_second.
Definition hours (n : Z) : timedelta := seconds (n * 3600).

Definition is_leap (year : Z) : bool :=
  (year mod 4 =? 0) && (negb (year mod 100 =? 0) || (year mod 400 =? 0)).

Definition DAYS_IN_MONTH : list Z := [-1; 31; 28; 31; 30; 31; 30; 31; 31; 30; 31; 30; 31].
Definition DAYS_BEFORE_MONTH : list Z := [-1; 0; 31; 59; 90; 120; 151; 181; 212; 243; 273; 304; 334].

Definition days_before_year (year : Z) : Z :=
  let y := year - 1 in y * 365 + y / 4 - y / 100 + y / 400.

Definition days_in_month (year month : Z) : Z :=
  if (month =? 2) && is_leap year then 29
  else nth (Z.to_nat month) DAYS_IN_MONTH 0.

Definition days_before_month (year month : Z) : Z :=
  nth (Z.to_nat month) DAYS_BEFORE_MONTH 0
  + (if (2 <? month) && is_leap year then 1 else 0).

Definition ymd2ord (year month day : Z) : Z :=
  days_before_year year + days_before_month year month + day.

Definition DI400Y : Z := 146097.
Definition DI100Y : Z := 36524.
Definition DI4Y : Z := 1461.

(** [_ord2ymd]: ordinal to (year, month, day), 0001-01-01 being day 1. *)
Definition ord2ymd (n : Z) : Z * Z * Z :=
  let n := n - 1 in
  let n400 := n / DI400Y in
  let n := n mod DI400Y in
  let year := n400 * 400 + 1 in
  let n100 := n / DI100Y in
  let n := n mod DI100Y in
  let n4 := n / DI4Y in
  let n := n mod DI4Y in
  let n1 := n / 365 in
  let n := n mod 365 in
  let year := year + n100 * 100 + n4 * 4 + n1 in
  if (n1 =? 4) || (n100 =? 4) then (year - 1, 12, 31)
  else
    let leapyear := (n1 =? 3) && (negb (n4 =? 24) || (n100 =? 3)) in
    let month := Z.shiftr (n + 50) 5 in
    let preceding :=
      nth (Z.to_nat month) DAYS_BEFORE_MONTH 0
      + (if (2 <? month) && leapyear then 1 else 0) in
    if n <? preceding then
      let month := month - 1 in
      let preceding :=
        preceding - (nth (Z.to_nat month) DAYS_IN_MONTH 0
                     + (if (month =? 2) && leapyear then 1 else 0)) in
      (year, month, n - preceding + 1)
    else (year, month, n - preceding + 1).

(** A [tzinfo] object: a fixed-offset [datetime.timezone], or one of the
    per-period objects a [pytz] zone hands out. *)
Inductive tzinfo : Type :=
| Timezone (offset : timedelta)
| PytzInfo (utcoffset dst : timedelta) (tzname : string).

Record datetime : Type := Datetime {
  year : Z; month : Z; day : Z;
  hour : Z; minute : Z; second : Z; microsecond : Z;
  tz : option tzinfo
}.

Definition replace_tzinfo (dt : datetime) (t : option tzinfo) : datetime :=
  Datetime (year dt) (month dt) (day dt) (hour dt) (minute dt) (second dt)
           (microsecond dt) t.

(** The constructor's range checks. *)
Definition new_datetime (y m d hh mm ss us : Z) (t : option tzinfo) : result datetime :=
  if negb ((MINYEAR <=? y) && (y <=? MAXYEAR)) then Err (ValueError "year is out of range" "")
  else if negb ((1 <=? m) && (m <=? 12)) then Err (ValueError "month must be in 1..12" "")
  else if negb ((1 <=? d) && (d <=? days_in_month y m)) then Err (ValueError "day is out of range for month" "")
  else if negb ((0 <=? hh) && (hh <=? 23)) then Err (ValueError "hour must be in 0..23" "")
  else if negb ((0 <=? mm) && (mm <=? 59)) then Err (ValueError "minute must be in 0..59" "")
  else if negb ((0 <=? ss) && (ss <=? 59)) then Err (ValueError "second must be in 0..59" "")
  else if negb ((0 <=? us) && (us <=? 999999)) then Err (ValueError "microsecond must be in 0..999999" "")
  else Ok (Datetime y m d hh mm ss us t).

(** Microseconds from the start of ordinal day 0 to the wall-clock reading. *)
Definition to_us (dt : datetime) : Z :=
  ymd2ord (year dt) (month dt) (day dt) * us_per_day
  + (hour dt * 3600 + minute dt * 60 + second dt) * us_per_second
  + microsecond dt.

(** [dt + delta] ([datetime.__add__]); the zone is carried along. *)
Definition add (dt : datetime) (delta : timedelta) : result datetime :=
  let total := to_us dt + delta in
  let days := total / us_per_day in
  let rest := total mod us_per_day in
  let secs := rest / us_per_second in
  if (0 <? days) && (days <=? MAXORDINAL) then
    let '(y, m, d) := ord2ymd days in
    Ok (Datetime y m d (secs / 3600) (secs mod 3600 / 60) (secs mod 3600 mod 60)
                 (rest mod us_per_second) (tz dt))
  else Err (OverflowError "date value out of range").

(** *** Parsing: [datetime.fromisoformat] *)

Definition digit_val (c : ascii) : option Z :=
  let n := Z.of_nat (nat_of_ascii c) in
  if (48 <=? n) && (n <=? 57) then Some (n - 48) else None.

Fixpoint digits_acc (acc : Z) (s : string) : option Z :=
  match s with
  | EmptyString => Some acc
  | String c rest =>
      match digit_val c with
      | Some d => digits_acc (acc * 10 + d) rest
      | None => None
      end
  end.

(** [int(s)] on a field of decimal digits; as the C accelerator does, a
    field with any other character is refused. *)
Definition parse_int (s : string) : option Z :=
  match s with
  | EmptyString => None
  | _ => digits_acc 0 s
  end.

Fixpoint drop (n : nat) (s : string) : string :=
  match n, s with
  | O, _ => s
  | S n', String _ rest => drop n' rest
  | S _, EmptyString => EmptyString
  end.

(** [s[lo:hi]]. *)
Definition slice (lo hi : nat) (s : string) : string := substring lo (hi - lo) s.

Definition char_at (i : nat) (s : string) : option ascii := String.get i s.

Definition is_char (c : ascii) (o : option ascii) : bool :=
  match o with Some c' => Ascii.eqb c' c | None => false end.

(** [_parse_isoformat_date], on the first ten characters. *)
Definition parse_isoformat_date (dtstr : string) : option (Z * Z * Z) :=
  match parse_int (slice 0 4 dtstr) with
  | None => None
  | Some y =>
    if negb (is_char "-" (char_at 4 dtstr)) then None else
    match parse_int (slice 5 7 dtstr) with
    | None => None
    | Some m =>
      if negb (is_char "-" (char_at 7 dtstr)) then None else
      match parse_int (slice 8 10 dtstr) with
      | None => None
      | Some d => Some (y, m, d)
      end
    end
  end.

(** The loop of [_parse_hh_mm_ss_ff]: up to [comps] two-digit fields
    separated by colons; returns the fields read and the unread rest. *)
Fixpoint parse_fields (comps : nat) (tstr : string) : option (list Z * string) :=
  match comps with
  | O => Some ([], tstr)
  | S more =>
    if (String.length tstr <? 2)%nat then None else
    match parse_int (slice 0 2 tstr) with
    | None => None
    | Some v =>
      match drop 2 tstr, more with
      | EmptyString, _ => Some ([v], EmptyString)
      | rest, O => Some ([v], rest)
      | String c rest, _ =>
          if Ascii.eqb c ":" then
            match parse_fields more rest with
            | Some (vs, r) => Some (v :: vs, r)
            | None => None
            end
          else None
      end
    end
  end.

(** [_parse_hh_mm_ss_ff]: HH[:MM[:SS[.fff[fff]]]]. *)
Definition parse_hh_mm_ss_ff (tstr : string) : option (Z * Z * Z * Z) :=
  match parse_fields 3 tstr with
  | None => None
  | Some (vs, rest) =>
    let hh := nth 0 vs 0 in
    let mm := nth 1 vs 0 in
    let ss := nth 2 vs 0 in
    match rest with
    | EmptyString => Some (hh, mm, ss, 0)
    | String c frac =>
      if negb (Ascii.eqb c ".") then None
      else if (String.length frac =? 3)%nat then
        match parse_int frac with Some f => Some (hh, mm, ss, f * 1000) | None => None end
      else if (String.length frac =? 6)%nat then
        match parse_int frac with Some f => Some (hh, mm, ss, f) | None => None end
      else None
    end
  end.

(** Position just after the first ['-'], or failing that the first ['+'];
    0 when there is neither ([tstr.find('-') + 1 or tstr.find('+') + 1]). *)
Fixpoint find (c : ascii) (s : string) : option nat :=
  match s with
  | EmptyString => None
  | String c' rest =>
      if Ascii.eqb c' c then Some O
      else match find c rest with Some i => Some (S i) | None => None end
  end.

Definition tz_pos (tstr : string) : nat :=
  match find "-" tstr with
  | Some i => S i
  | None => match find "+" tstr with Some i => S i | None => O end
  end.

(** [_parse_isoformat_time]: the time fields and the zone, if any. *)
Definition parse_isoformat_time (tstr : string) : option (Z * Z * Z * Z * option tzinfo) :=
  if (String.length tstr <? 2)%nat then None else
  let p := tz_pos tstr in
  let timestr := if (0 <? p)%nat then slice 0 (p - 1) tstr else tstr in
  match parse_hh_mm_ss_ff timestr with
  | None => None
  | Some (hh, mm, ss, us) =>
    if (0 <? p)%nat then
      let tzstr := drop p tstr in
      let n := String.length tzstr in
      if negb ((n =? 5) || (n =? 8) || (n =? 15))%nat then None else
      match parse_hh_mm_ss_ff tzstr with
      | None => None
      | Some (th, tm, ts, tus) =>
        if (th =? 0) && (tm =? 0) && (ts =? 0) && (tus =? 0)
        then Some (hh, mm, ss, us, Some (Timezone 0))
        else
          let sign := if is_char "-" (char_at (p - 1) tstr) then -1 else 1 in
          let off := sign * (seconds (th * 3600 + tm * 60 + ts) + tus) in
          (* [timezone(offset)] refuses offsets of a day or more *)
          if (- us_per_day <? off) && (off <? us_per_day)
          then Some (hh, mm, ss, us, Some (Timezone off))
          else None
      end
    else Some (hh, mm, ss, us, None)
  end.

Definition invalid_isoformat {A} (date_string : string) : result A :=
  Err (ValueError "Invalid isoformat string" date_string).

Definition fromisoformat (date_string : string) : result datetime :=
  let dstr := slice 0 10 date_string in
  let tstr := drop 11 date_string in
  match parse_isoformat_date dstr with
  | None => invalid_isoformat date_string
  | Some (y, m, d) =>
    match tstr with
    | EmptyString => new_datetime y m d 0 0 0 0 None
    | _ =>
      match parse_isoformat_time tstr with
      | None => invalid_isoformat date_string
      | Some (hh, mm, ss, us, t) => new_datetime y m d hh mm ss us t
      end
    end
  end.

(** *** Zones: [pytz] *)

(** A [pytz] zone ([DstTzInfo]): the instants (naive UTC readings) at which
    the rules change, and for each the offset, the daylight-saving part of
    it and the abbreviation in force from then on. *)
Record zone : Type := Zone {
  utc_transition_times : list datetime;
  transition_info : list (timedelta * timedelta * string)
}.

(** [bisect.bisect_right] on a sorted list: how many entries are at or
    before [x]. *)
Fixpoint bisect_right (times : list datetime) (x : datetime) : nat :=
  match times with
  | [] => O
  | t :: rest => if to_us t <=? to_us x then S (bisect_right rest x) else O
  end.

(** [DstTzInfo.fromutc]. *)
Definition fromutc (z : zone) (dt : datetime) : result datetime :=
  let dt := replace_tzinfo dt None in
  let idx := Nat.max 0 (bisect_right (utc_transition_times z) dt - 1) in
  match nth_error (transition_info z) idx with
  | None => Err (IndexError TList)
  | Some (off, dst, name) =>
      (let* local := add dt off in
       Ok (replace_tzinfo local (Some (PytzInfo off dst name))))%res
  end.

Definition utcoffset (t : tzinfo) : timedelta :=
  match t with
  | Timezone off => off
  | PytzInfo off _ _ => off
  end.

(** [datetime.astimezone(tz)] for a [pytz] zone; a naive reading is taken
    to be in the system's local zone, whose offset [local_utcoffset]
    gives. *)
Definition astimezone (local_utcoffset : datetime -> timedelta)
           (dt : datetime) (z : zone) : result datetime :=
  let myoffset :=
    match tz dt with
    | Some t => utcoffset t
    | None => local_utcoffset dt
    end in
  (let* utc := add dt (- myoffset) in fromutc z utc)%res.

(** *** Formatting: [strftime] *)

Definition digit (d : Z) : ascii := ascii_of_nat (48 + Z.to_nat d).

(** [n] in decimal, zero-padded to [width] digits, for [0 <= n < 10^width]. *)
Fixpoint zpad (width : nat) (n : Z) : string :=
  match width with
  | O => EmptyString
  | S w => zpad w (n / 10) ++ String (digit (n mod 10)) EmptyString
  end.

(** [timezone._name_from_offset]. *)
Definition name_from_offset (delta : timedelta) : string :=
  if delta =? 0 then "UTC" else
  let sign := if delta <? 0 then "-" else "+" in
  let delta := Z.abs delta in
  let hh := delta / hours 1 in
  let rest := delta mod hours 1 in
  let mm := rest / seconds 60 in
  let rest := rest mod seconds 60 in
  let ss := rest / us_per_second in
  let us := rest mod us_per_second in
  let hhmm := "UTC" ++ sign ++ zpad 2 hh ++ ":" ++ zpad 2 mm in
  if negb (us =? 0) then hhmm ++ ":" ++ zpad 2 ss ++ "." ++ zpad 6 us
  else if negb (ss =? 0) then hhmm ++ ":" ++ zpad 2 ss
  else hhmm.

Definition tzname (dt : datetime) : string :=
  match tz dt with
  | None => ""
  | Some (Timezone off) => name_from_offset off
  | Some (PytzInfo _ _ name) => name
  end.

(** [n] in decimal, without padding, for [0 <= n]. *)
Fixpoint unpadded_digits (fuel : nat) (n : Z) : string :=
  match fuel with
  | O => EmptyString
  | S k =>
      (if n <? 10 then EmptyString else unpadded_digits k (n / 10))
      ++ String (digit (n mod 10)) EmptyString
  end.

Definition unpadded (n : Z) : string :=
  unpadded_digits (S (Z.to_nat (Z.log2 n))) n.

(** The directives the program uses; any other character is copied.
    [strftime] is the C library's: on Linux it prints the year as it is, so
    a year before 1000 comes out with fewer than four digits; the other
    fields are of two digits. *)
Fixpoint strftime (dt : datetime) (format : string) : string :=
  match format with
  | String "%" (String d rest) =>
      (if Ascii.eqb d "Y" then unpadded (year dt)
       else if Ascii.eqb d "m" then zpad 2 (month dt)
       else if Ascii.eqb d "d" then zpad 2 (day dt)
       else if Ascii.eqb d "H" then zpad 2 (hour dt)
       else if Ascii.eqb d "M" then zpad 2 (minute dt)
       else if Ascii.eqb d "S" then zpad 2 (second dt)
       else if Ascii.eqb d "Z" then tzname dt
       else String "%" (String d EmptyString))
      ++ strftime dt rest
  | String c rest => String c (strftime dt rest)
  | EmptyString => EmptyString
  end.

(** *** The zone table for Europe/Madrid

    The rule in force since 1996 (summer time from the last Sunday of March
    to the last Sunday of October, switching at 01:00 UTC), for the years
    the compiled table lists, 1996 to 2037; earlier periods are left out. *)

Definition weekday (y m d : Z) : Z := (ymd2ord y m d + 6) mod 7.

Definition last_sunday (y m : Z) : Z :=
  let last := days_in_month y m in
  last - (weekday y m last + 1) mod 7.

Definition CET : timedelta * timedelta * string := (hours 1, 0, "CET").
Definition CEST : timedelta * timedelta * string := (hours 2, hours 1, "CEST").

Definition eu_switches (y : Z) : list datetime :=
  [ Datetime y 3 (last_sunday y 3) 1 0 0 0 None;
    Datetime y 10 (last_sunday y 10) 1 0 0 0 None ].

Definition eu_years : list Z := map (fun i => 1996 + Z.of_nat i) (seq 0 42).

Definition Europe_Madrid : zone :=
  Zone (Datetime 1 1 1 0 0 0 0 None :: flat_map eu_switches eu_years)
       (CET :: flat_map (fun _ => [CEST; CET]) eu_years).

End Datetime.
Import Datetime.

(** ** The program *)

(** What the interpreter and its libraries supply and the source does not
    fix: the text [repr] and [str] give for values and exceptions, the
    table [pytz] ships for Europe/Madrid, and the system's local zone. *)
Class Runtime : Type := {
  repr : json -> string;
  str_exn : exn -> string;
  europe_madrid : zone;
  local_utcoffset : datetime -> timedelta
}.

Inductive level := ERROR | WARNING.

Inductive request :=
| GET (uri : string)
| POST (uri : string) (payload : json).

(** Everything a run does that can be observed from outside, in order. *)
Inductive event :=
| Sleep (secs : Z)
| Request (r : request)
| Printed (line : string)
| Log (lv : level) (message : string).

Definition trace := list event.

Record response : Type := Response {
  status_code : Z;
  body : option json      (* [None]: the body is not JSON *)
}.

Inductive reply :=
| Responds (r : response)
| Raises (e : exn).

(** [FabricRestClient]: the answer to a request may depend on all that
    happened before it. *)
Definition Client := trace -> request -> reply.

Record LakehouseSyncManager : Type := Manager {
  workspace_id : string;
  lakehouse_id : string;
  client : Client
}.

(** A statement either returns, raises, or is still running when the
    budget of loop iterations is spent. *)
Inductive outcome (A : Type) : Type :=
| Returns (a : A)
| Throws (e : exn)
| Running.
Arguments Returns {A} a.
Arguments Throws {A} e.
Arguments Running {A}.

Definition M (A : Type) : Type := trace -> outcome A * trace.

Definition ret {A} (a : A) : M A := fun t => (Returns a, t).
Definition raise {A} (e : exn) : M A := fun t => (Throws e, t).
Definition bind {A B} (c : M A) (k : A -> M B) : M B :=
  fun t =>
    match c t with
    | (Returns a, t') => k a t'
    | (Throws e, t') => (Throws e, t')
    | (Running, t') => (Running, t')
    end.
Definition emit (e : event) : M unit := fun t => (Returns tt, (t ++ [e])%list).
Definition lift {A} (r : result A) : M A :=
  match r with Ok a => ret a | Err e => raise e end.

Declare Scope m_scope.
Delimit Scope m_scope with M.
Notation "x <- c ;; k" := (bind c (fun x => k))
  (at level 61, c at next level, right associativity) : m_scope.
Notation "' p <- c ;; k" := (bind c (fun x => match x with p => k end))
  (at level 61, p pattern, c at next level, right associativity) : m_scope.
Notation "c ;;; k" := (bind c (fun _ => k))
  (at level 61, right associativity) : m_scope.

Module Sync.
Section Sync.
Context {rt : Runtime}.

(** [format(v, '')] inside an f-string. *)
Definition py_str (v : json) : string :=
  match v with
  | JStr s => s
  | _ => repr v
  end.

Definition pytz_timezone (name : string) : result zone :=
  if String.eqb name "Europe/Madrid" then Ok europe_madrid
  else Err (UnknownTimeZoneError name).

Definition time_sleep (secs : Z) : M unit := emit (Sleep secs).
Definition print (line : string) : M unit := emit (Printed line).
Definition logging_error (message : string) : M unit := emit (Log ERROR message).
Definition logging_warning (message : string) : M unit := emit (Log WARNING message).

Definition send (self : LakehouseSyncManager) (r : request) : M response :=
  fun t =>
    match client self t r with
    | Responds resp => (Returns resp, (t ++ [Request r])%list)
    | Raises e => (Throws e, (t ++ [Request r])%list)
    end.

Definition raise_for_status (r : response) : M unit :=
  if (400 <=? status_code r) && (status_code r <? 600)
  then raise (HTTPError (status_code r))
  else ret tt.

Definition response_json (r : response) : M json :=
  match body r with
  | Some v => ret v
  | None => raise JSONDecodeError
  end.

(** Lines 24-43. *)
Definition convert_to_spain (utc_time_str : json) : result string :=
  match utc_time_str with
  | JNull => Ok "N/A"
  | _ =>
    (let* madrid_tz := pytz_timezone "Europe/Madrid" in
     let* head := split_dot_0 utc_time_str in
     let utc_time_str := head ++ "+00:00" in
     let* utc_time := fromisoformat utc_time_str in
     let* local := astimezone local_utcoffset utc_time madrid_tz in
     Ok (strftime local "%Y-%m-%d %H:%M:%S %Z"))%res
  end.

(** Lines 45-54. *)
Definition fetch_sql_endpoint_id (self : LakehouseSyncManager) : M json :=
  (response <- send self (GET ("/v1/workspaces/" ++ workspace_id self
                               ++ "/lakehouses/" ++ lakehouse_id self)) ;;
   raise_for_status response ;;;
   lakehouse_info <- response_json response ;;
   lift (let* properties := getitem lakehouse_info "properties" in
         let* endpoint := getitem properties "sqlEndpointProperties" in
         getitem endpoint "id")%res)%M.

(** Lines 56-68. *)
Definition initiate_sync (self : LakehouseSyncManager) (sql_endpoint_id : json)
  : M (json * json) :=
  (let uri := "/v1.0/myorg/lhdatamarts/" ++ py_str sql_endpoint_id in
   let payload := JObj [("commands", JArr [JObj [("$type", JStr "MetadataRefreshCommand")]])] in
   response <- send self (POST uri payload) ;;
   raise_for_status response ;;;
   data <- response_json response ;;
   lift (let* batch_id := getitem data "batchId" in
         let* progress_state := getitem data "progressState" in
         Ok (batch_id, progress_state))%res)%M.

(** The loop of lines 81-86; [progress_state] is ['inProgress'] on entry,
    so the body runs before the condition is looked at again. *)
Fixpoint poll_loop (fuel : nat) (self : LakehouseSyncManager) (status_uri : string)
  : M json :=
  match fuel with
  | O => fun t => (Running, t)
  | S fuel' =>
    (time_sleep 1 ;;;
     response <- send self (GET status_uri) ;;
     raise_for_status response ;;;
     status_data <- response_json response ;;
     progress_state <- lift (getitem status_data "progressState") ;;
     if eq_str progress_state "inProgress"
     then poll_loop fuel' self status_uri
     else ret status_data)%M
  end.

(** Lines 70-88. *)
Definition poll_sync_status (fuel : nat) (self : LakehouseSyncManager)
           (sql_endpoint_id batch_id : json) : M json :=
  let status_uri := "/v1.0/myorg/lhdatamarts/" ++ py_str sql_endpoint_id
                    ++ "/batches/" ++ py_str batch_id in
  poll_loop fuel self status_uri.

(** The dictionaries of [table_details]. *)
Record table_detail : Type := TableDetail {
  tableName : json;
  lastSuccessfulUpdate : string;
  tableSyncState : json;
  sqlSyncState : json
}.

(** Lines 108-113, for one [table]. *)
Definition build_detail (table : json) : result table_detail :=
  (let* name := getitem table "tableName" in
   let* stamp := dict_get table "lastSuccessfulUpdate" (JStr "N/A") in
   let* last_update := convert_to_spain stamp in
   let* table_state := getitem table "tableSyncState" in
   let* sql_state := getitem table "sqlSyncState" in
   Ok (TableDetail name last_update table_state sql_state))%res.

Fixpoint comprehension {A B} (f : A -> result B) (xs : list A) : result (list B) :=
  match xs with
  | [] => Ok []
  | x :: rest =>
      (let* y := f x in
       let* ys := comprehension f rest in
       Ok (y :: ys))%res
  end.

Definition detail_line (detail : table_detail) : string :=
  "Table: " ++ py_str (tableName detail)
  ++ "   Last Update: " ++ lastSuccessfulUpdate detail ++ "  "
  ++ "Table Sync State: " ++ py_str (tableSyncState detail)
  ++ "  SQL Sync State: " ++ py_str (sqlSyncState detail).

Fixpoint print_details (details : list table_detail) : M unit :=
  match details with
  | [] => ret tt
  | detail :: rest => (print (detail_line detail) ;;; print_details rest)%M
  end.

(** Lines 105-123: the classification of the final status. *)
Definition report (status_data : json) : M unit :=
  (state <- lift (getitem status_data "progressState") ;;
   if eq_str state "success" then
     table_details <-
       lift (let* info := getitem status_data "operationInformation" in
             let* first := getitem0 info in
             let* detail := getitem first "progressDetail" in
             let* tables_sync_status := getitem detail "tablesSyncStatus" in
             let* tables := iterate tables_sync_status in
             comprehension build_detail tables)%res ;;
     print_details table_details
   else
     state <- lift (getitem status_data "progressState") ;;
     if eq_str state "failure" then
       logging_error ("Sync failed: " ++ py_str status_data)
     else
       state <- lift (getitem status_data "progressState") ;;
       logging_warning ("Unexpected state: " ++ py_str state))%M.

(** Lines 95-123: the body of the [try]. *)
Definition sync_steps (fuel : nat) (self : LakehouseSyncManager) : M unit :=
  (sql_endpoint_id <- fetch_sql_endpoint_id self ;;
   ' (batch_id, progress_state) <- initiate_sync self sql_endpoint_id ;;
   status_data <- poll_sync_status fuel self sql_endpoint_id batch_id ;;
   report status_data)%M.

(** Lines 125-130: the [except] clauses, tried in order. *)
Definition handler (e : exn) : M unit :=
  match e with
  | FabricHTTPException _ => logging_error ("Fabric HTTP Exception: " ++ str_exn e)
  | WorkspaceNotFoundException _ => logging_error ("Workspace not found: " ++ str_exn e)
  | _ => logging_error ("An unexpected error occurred: " ++ str_exn e)
  end.

(** Lines 90-130. *)
Definition sync_lakehouse (fuel : nat) (self : LakehouseSyncManager) : M unit :=
  fun t =>
    match sync_steps fuel self t with
    | (Throws e, t') => handler e t'
    | done => done
    end.

(** Lines 13-22: the constructor.  [new_client] is what
    [fabric.FabricRestClient()] gives: a client, or the fault it ends in. *)
Definition __init__ (new_client : result Client) (workspace_id lakehouse_id : string)
  : M LakehouseSyncManager :=
  match new_client with
  | Ok c => ret (Manager workspace_id lakehouse_id c)
  | Err e => raise e
  end.

(** Lines 133-147. *)
Definition run_sync (fuel : nat) (new_client : result Client) : M unit :=
  (let workspace_id := "XXXXXXXXXXXXXXXXXXXXXXXXXXXXXXXXXXXX" in
   let lakehouse_id := "XXXXXXXXXXXXXXXXXXXXXXXXXXXXXXXXXXXX" in
   sync_manager <- __init__ new_client workspace_id lakehouse_id ;;
   sync_lakehouse fuel sync_manager)%M.

End Sync.
End Sync.

(** ** Vocabulary of the specification *)

Module Spec.
Import Sync.

(** *** Status reads as the poller sees them *)

(** One round of the polling loop as it shows in the trace. *)
Definition cycle (status_uri : string) : trace :=
  [Sleep 1; Request (GET status_uri)].

Fixpoint cycles (status_uri : string) (n : nat) : trace :=
  match n with
  | O => []
  | S k => (cycle status_uri ++ cycles status_uri k)%list
  end.

(** The answer to the status read number [k] (from 0) of a poller that
    started after [t]. *)
Definition status_read (self : LakehouseSyncManager) (status_uri : string)
           (t : trace) (k : nat) : reply :=
  client self (t ++ cycles status_uri k ++ [Sleep 1])%list (GET status_uri).

(** What a status read reports: the payload and its [progressState], or the
    fault the read ends in. *)
Definition reported (r : reply) : result (json * json) :=
  match r with
  | Raises e => Err e
  | Responds resp =>
      if (400 <=? status_code resp) && (status_code resp <? 600)
      then Err (HTTPError (status_code resp))
      else match body resp with
           | None => Err JSONDecodeError
           | Some payload =>
               match getitem payload "progressState" with
               | Ok state => Ok (payload, state)
               | Err e => Err e
               end
           end
  end.

Definition in_progress (r : reply) : bool :=
  match reported r with
  | Ok (_, state) => eq_str state "inProgress"
  | Err _ => false
  end.

Definition status_uri_of {rt : Runtime} (sql_endpoint_id batch_id : json) : string :=
  "/v1.0/myorg/lhdatamarts/" ++ py_str sql_endpoint_id
  ++ "/batches/" ++ py_str batch_id.

(** The two other requests of a run. *)
Definition lakehouse_uri (self : LakehouseSyncManager) : string :=
  "/v1/workspaces/" ++ workspace_id self ++ "/lakehouses/" ++ lakehouse_id self.

Definition refresh_request {rt : Runtime} (sql_endpoint_id : json) : request :=
  POST ("/v1.0/myorg/lhdatamarts/" ++ py_str sql_endpoint_id)
       (JObj [("commands", JArr [JObj [("$type", JStr "MetadataRefreshCommand")]])]).

(** The table records the reporter builds from a successful payload
    (lines 106-115 on their own). *)
Definition table_details_of {rt : Runtime} (status_data : json)
  : result (list table_detail) :=
  (let* info := getitem status_data "operationInformation" in
   let* first := getitem0 info in
   let* detail := getitem first "progressDetail" in
   let* tables_sync_status := getitem detail "tablesSyncStatus" in
   let* tables := iterate tables_sync_status in
   comprehension build_detail tables)%res.

Definition is_log (e : event) : bool :=
  match e with Log _ _ => true | _ => false end.

Definition is_print (e : event) : bool :=
  match e with Printed _ => true | _ => false end.

(** A run that went through the events [evs] logged and printed nothing. *)
Definition silent (evs : trace) : Prop :=
  filter is_log evs = [] /\ filter is_print evs = [].

(** *** Stages of a run *)

Inductive stage := Resolver | Initiator | Poller | Reporter.

(** The fault [e] is raised at stage [s] of the run from [t], all earlier
    stages having returned, and [t'] is the trace at that point. *)
Definition fault_at {rt : Runtime} (fuel : nat) (self : LakehouseSyncManager)
           (t : trace) (s : stage) (e : exn) (t' : trace) : Prop :=
  match s with
  | Resolver => fetch_sql_endpoint_id self t = (Throws e, t')
  | Initiator =>
      exists id t1,
        fetch_sql_endpoint_id self t = (Returns id, t1)
        /\ initiate_sync self id t1 = (Throws e, t')
  | Poller =>
      exists id t1 batch state t2,
        fetch_sql_endpoint_id self t = (Returns id, t1)
        /\ initiate_sync self id t1 = (Returns (batch, state), t2)
        /\ poll_sync_status fuel self id batch t2 = (Throws e, t')
  | Reporter =>
      exists id t1 batch state t2 status_data t3,
        fetch_sql_endpoint_id self t = (Returns id, t1)
        /\ initiate_sync self id t1 = (Returns (batch, state), t2)
        /\ poll_sync_status fuel self id batch t2 = (Returns status_data, t3)
        /\ report status_data t3 = (Throws e, t')
  end.

(** The diagnostic the orchestrator logs for a fault. *)
Definition diagnostic {rt : Runtime} (e : exn) : event :=
  match e with
  | FabricHTTPException _ => Log ERROR ("Fabric HTTP Exception: " ++ str_exn e)
  | WorkspaceNotFoundException _ => Log ERROR ("Workspace not found: " ++ str_exn e)
  | _ => Log ERROR ("An unexpected error occurred: " ++ str_exn e)
  end.

(** *** Two initiator replies that differ in the reported state only *)

Definition same_but_state (r1 r2 : reply) : Prop :=
  r1 = r2
  \/ exists code d1 d2,
       r1 = Responds (Response code (Some d1))
       /\ r2 = Responds (Response code (Some d2))
       /\ getitem d1 "batchId" = getitem d2 "batchId"
       /\ (exists s1, getitem d1 "progressState" = Ok s1)
       /\ (exists s2, getitem d2 "progressState" = Ok s2).

(** Two managers for the same target whose clients answer every read alike
    and every submission alike but for the state reported. *)
Definition same_but_initial_state (self1 self2 : LakehouseSyncManager) : Prop :=
  workspace_id self1 = workspace_id self2
  /\ lakehouse_id self1 = lakehouse_id self2
  /\ (forall h uri, client self1 h (GET uri) = client self2 h (GET uri))
  /\ (forall h uri p,
        same_but_state (client self1 h (POST uri p)) (client self2 h (POST uri p))).

(** *** Timestamps *)

(** The fields of a text of the shape YYYY-MM-DD?HH:MM:SS, [sep] standing
    between date and time, and what follows them. *)
Definition two (a b : ascii) : option Z :=
  match digit_val a, digit_val b with
  | Some x, Some y => Some (10 * x + y)
  | _, _ => None
  end.

Definition four (a b c d : ascii) : option Z :=
  match two a b, two c d with
  | Some x, Some y => Some (100 * x + y)
  | _, _ => None
  end.

Record stamp : Type := Stamp {
  s_year : Z; s_month : Z; s_day : Z; s_hour : Z; s_minute : Z; s_second : Z
}.

Definition read_stamp (sep : ascii) (s : string) : option (stamp * string) :=
  match s with
  | String y1 (String y2 (String y3 (String y4 (String c1
    (String m1 (String m2 (String c2
    (String d1 (String d2 (String c3
    (String h1 (String h2 (String c4
    (String n1 (String n2 (String c5
    (String e1 (String e2 rest)))))))))))))))))) =>
      if Ascii.eqb c1 "-" && Ascii.eqb c2 "-" && Ascii.eqb c3 sep
         && Ascii.eqb c4 ":" && Ascii.eqb c5 ":"
      then
        match four y1 y2 y3 y4, two m1 m2, two d1 d2, two h1 h2, two n1 n2, two e1 e2 with
        | Some y, Some m, Some d, Some hh, Some mm, Some ss =>
            Some (Stamp y m d hh mm ss, rest)
        | _, _, _, _, _, _ => None
        end
      else None
  | _ => None
  end.

(** The text of a reading, digit by digit. *)
Definition render (sep : ascii) (f : stamp) : string :=
  zpad 4 (s_year f) ++ "-" ++ zpad 2 (s_month f) ++ "-" ++ zpad 2 (s_day f)
  ++ String sep (zpad 2 (s_hour f) ++ ":" ++ zpad 2 (s_minute f) ++ ":"
                 ++ zpad 2 (s_second f)).

Definition stamp_of (dt : datetime) : stamp :=
  Stamp (year dt) (month dt) (day dt) (hour dt) (minute dt) (second dt).

(** The text of a reading as the program prints it: like [render] with a
    space, but for the year, which is not padded. *)
Definition printed (f : stamp) : string :=
  unpadded (s_year f) ++ "-" ++ zpad 2 (s_month f) ++ "-" ++ zpad 2 (s_day f)
  ++ String " " (zpad 2 (s_hour f) ++ ":" ++ zpad 2 (s_minute f) ++ ":"
                 ++ zpad 2 (s_second f)).

(** A calendar date and time of day that exist. *)
Definition stamp_ok (f : stamp) : bool :=
  (1 <=? s_year f) && (s_year f <=? 9999)
  && (1 <=? s_month f) && (s_month f <=? 12)
  && (1 <=? s_day f) && (s_day f <=? days_in_month (s_year f) (s_month f))
  && (s_hour f <=? 23) && (s_minute f <=? 59) && (s_second f <=? 59).

(** A valid truncated-ISO timestamp: YYYY-MM-DDTHH:MM:SS, then nothing or a
    full stop and a fraction that is cut off. *)
Definition truncated_iso (s : string) : option stamp :=
  match read_stamp "T" s with
  | Some (f, rest) =>
      if stamp_ok f
         && match rest with
            | EmptyString => true
            | String c _ => Ascii.eqb c "."
            end
      then Some f else None
  | None => None
  end.

(** The instant a UTC reading denotes, in microseconds. *)
Definition instant (f : stamp) : Z :=
  to_us (Datetime (s_year f) (s_month f) (s_day f)
                  (s_hour f) (s_minute f) (s_second f) 0 None).

(** The same reading as [fromisoformat] returns it. *)
Definition utc_reading (f : stamp) : datetime :=
  Datetime (s_year f) (s_month f) (s_day f) (s_hour f) (s_minute f) (s_second f)
           0 (Some (Timezone 0)).

(** The offset an abbreviation stands for in a zone. *)
Fixpoint abbreviation_offset (infos : list (timedelta * timedelta * string))
         (abbreviation : string) : option timedelta :=
  match infos with
  | [] => None
  | (off, _, name) :: rest =>
      if String.eqb name abbreviation then Some off
      else abbreviation_offset rest abbreviation
  end.

(** The entry of a zone in force at a UTC reading, as [fromutc] picks it. *)
Definition in_force (z : zone) (utc : datetime)
  : option (timedelta * timedelta * string) :=
  nth_error (transition_info z)
            (Nat.max 0 (bisect_right (utc_transition_times z) utc - 1)).

(** Reading a localized text back: the wall-clock reading, less the offset
    of the abbreviation that follows it, as a UTC instant. *)
Definition parse_back (z : zone) (text : string) : option Z :=
  match read_stamp " " text with
  | Some (f, String c abbreviation) =>
      if Ascii.eqb c " " && stamp_ok f then
        match abbreviation_offset (transition_info z) abbreviation with
        | Some off => Some (instant f - off)
        | None => None
        end
      else None
  | _ => None
  end.

(** A zone table fit for reading back: every switch has its entry, every
    offset is a whole number of seconds short of a day, and no abbreviation
    stands for two offsets. *)
Definition entry_ok (infos : list (timedelta * timedelta * string))
           (info : timedelta * timedelta * string) : bool :=
  let '(off, _, name) := info in
  (- us_per_day <? off) && (off <? us_per_day)
  && (off mod us_per_second =? 0)
  && match abbreviation_offset infos name with
     | Some off' => off' =? off
     | None => false
     end.

Definition zone_ok (z : zone) : bool :=
  (1 <=? List.length (transition_info z))%nat
  && (List.length (utc_transition_times z) <=? List.length (transition_info z))%nat
  && forallb (entry_ok (transition_info z)) (transition_info z).

(** *** Checking the calendar over the days of a year *)

Fixpoint all_from (i : Z) (count : nat) (p : Z -> bool) : bool :=
  match count with
  | O => true
  | S c => if p i then all_from (i + 1) c p else false
  end.

(** The month and day [ord2ymd] finds for day [r] (from 0) of a year. *)
Definition month_day (leapyear : bool) (r : Z) : Z * Z :=
  let month := Z.shiftr (r + 50) 5 in
  let preceding :=
    nth (Z.to_nat month) DAYS_BEFORE_MONTH 0
    + (if (2 <? month) && leapyear then 1 else 0) in
  if r <? preceding then
    let month := month - 1 in
    let preceding :=
      preceding - (nth (Z.to_nat month) DAYS_IN_MONTH 0
                   + (if (month =? 2) && leapyear then 1 else 0)) in
    (month, r - preceding + 1)
  else (month, r - preceding + 1).

(** Day [r] of a year falls on a date that exists and counts back to it. *)
Definition day_of_year_ok (leapyear : bool) (r : Z) : bool :=
  let '(m, d) := month_day leapyear r in
  (1 <=? m) && (m <=? 12) && (1 <=? d)
  && (d <=? (if (m =? 2) && leapyear then 29 else nth (Z.to_nat m) DAYS_IN_MONTH 0))
  && (nth (Z.to_nat m) DAYS_BEFORE_MONTH 0
      + (if (2 <? m) && leapyear then 1 else 0) + d =? r + 1).

(** *** A runtime to run examples on *)

Definition decimal (n : Z) : string := NilZero.string_of_int (Z.to_int n).

(** A stand-in for [repr], right for [None], booleans, integers and text
    without quotes, backslashes or control characters. *)
#[warnings="-register-all"]
Fixpoint repr_json (v : json) : string :=
  match v with
  | JNull => "None"
  | JBool true => "True"
  | JBool false => "False"
  | JInt n => decimal n
  | JFloat lexeme => lexeme
  | JStr s => "'" ++ s ++ "'"
  | JArr items =>
      "[" ++ (fix go (l : list json) : string :=
                match l with
                | [] => ""
                | x :: rest =>
                    match rest with
                    | [] => repr_json x
                    | _ => repr_json x ++ ", " ++ go rest
                    end
                end) items ++ "]"
  | JObj fields =>
      "{" ++ (fix go (l : list (string * json)) : string :=
                match l with
                | [] => ""
                | (k, x) :: rest =>
                    match rest with
                    | [] => "'" ++ k ++ "': " ++ repr_json x
                    | _ => "'" ++ k ++ "': " ++ repr_json x ++ ", " ++ go rest
                    end
                end) fields ++ "}"
  end.

(** A stand-in for [str] on exceptions; the texts are not the libraries'. *)
Definition str_exception (e : exn) : string :=
  match e with
  | FabricHTTPException detail | WorkspaceNotFoundException detail => detail
  | HTTPError status => decimal status ++ " Error"
  | JSONDecodeError => "Expecting value"
  | KeyError key => repr_json key
  | IndexError _ => "index out of range"
  | TypeError operation _ | AttributeError operation _ => operation
  | ValueError what "" => what
  | ValueError what arg => what ++ ": " ++ repr_json (JStr arg)
  | OverflowError what => what
  | UnknownTimeZoneError zone_name => repr_json (JStr zone_name)
  | OtherException _ detail => detail
  end.

(** A system whose local zone is UTC, with the Madrid table above. *)
Definition reference_runtime : Runtime :=
  {| repr := repr_json;
     str_exn := str_exception;
     europe_madrid := Europe_Madrid;
     local_utcoffset := fun _ => 0 |}.

(** *** Scripted clients *)

Definition is_sleep (e : event) : bool :=
  match e with Sleep _ => true | _ => false end.

(** A client that answers the metadata read with [metadata], a submission
    with [submitted], and the status read after the [k+1]-th sleep with the
    [k]-th of [statuses]; the script over, the connection is gone. *)
Definition scripted (metadata submitted : reply) (statuses : list reply) : Client :=
  fun history r =>
    match r with
    | POST _ _ => submitted
    | GET uri =>
        if String.prefix "/v1/workspaces/" uri then metadata
        else nth (List.length (filter is_sleep history) - 1) statuses
                 (Raises (OtherException "ConnectionError" "connection closed"))
    end.

Definition ok_json (v : json) : reply := Responds (Response 200 (Some v)).

Definition metadata_ep1 : json :=
  JObj [("id", JStr "lh");
        ("properties", JObj [("sqlEndpointProperties", JObj [("id", JStr "ep-1")])])].

Definition submitted_b1 (state : string) : json :=
  JObj [("batchId", JStr "b1"); ("progressState", JStr state)].

Definition status (state : string) : json := JObj [("progressState", JStr state)].

Definition success_with (tables : list json) : json :=
  JObj [("progressState", JStr "success");
        ("operationInformation",
         JArr [JObj [("progressDetail", JObj [("tablesSyncStatus", JArr tables)])]])].

(** A successful payload with any list of operations. *)
Definition success_payload (operations : list json) : json :=
  JObj [("progressState", JStr "success"); ("operationInformation", JArr operations)].

Definition operation_with (tables : json) : json :=
  JObj [("progressDetail", JObj [("tablesSyncStatus", tables)])].

Definition orders : json :=
  JObj [("tableName", JStr "Orders");
        ("lastSuccessfulUpdate", JStr "2024-01-01T10:00:00.123");
        ("tableSyncState", JStr "Completed");
        ("sqlSyncState", JStr "Completed")].

(** The same table with a null timestamp. *)
Definition orders_null_timestamp : json :=
  JObj [("tableName", JStr "Orders");
        ("lastSuccessfulUpdate", JNull);
        ("tableSyncState", JStr "Completed");
        ("sqlSyncState", JStr "Completed")].

(** The same table, the server having left the timestamp out. *)
Definition orders_never_synced : json :=
  JObj [("tableName", JStr "Orders");
        ("tableSyncState", JStr "Completed");
        ("sqlSyncState", JStr "Completed")].

Definition manager_of (c : Client) : LakehouseSyncManager := Manager "ws" "lh" c.

(** The run of the specification's scenario: in progress once, then done. *)
Definition orders_run : LakehouseSyncManager :=
  manager_of (scripted (ok_json metadata_ep1) (ok_json (submitted_b1 "inProgress"))
                       [ok_json (status "inProgress"); ok_json (success_with [orders])]).

Definition never_synced_run : LakehouseSyncManager :=
  manager_of (scripted (ok_json metadata_ep1) (ok_json (submitted_b1 "inProgress"))
                       [ok_json (success_with [orders_never_synced])]).

Definition null_timestamp_run : LakehouseSyncManager :=
  manager_of (scripted (ok_json metadata_ep1) (ok_json (submitted_b1 "inProgress"))
                       [ok_json (success_with [orders_null_timestamp])]).

(** A job the initiator already reports as done. *)
Definition done_at_once_run : LakehouseSyncManager :=
  manager_of (scripted (ok_json metadata_ep1) (ok_json (submitted_b1 "success"))
                       [ok_json (success_with [orders])]).

(** The same job, reported as still running when submitted. *)
Definition done_on_first_read_run : LakehouseSyncManager :=
  manager_of (scripted (ok_json metadata_ep1) (ok_json (submitted_b1 "inProgress"))
                       [ok_json (success_with [orders])]).

(** A job that never leaves ['inProgress']. *)
Definition endless_run : LakehouseSyncManager :=
  manager_of (fun _ r =>
                match r with
                | POST _ _ => ok_json (submitted_b1 "inProgress")
                | GET uri =>
                    if String.prefix "/v1/workspaces/" uri then ok_json metadata_ep1
                    else ok_json (status "inProgress")
                end).

(** A job that fails. *)
Definition failing_run : LakehouseSyncManager :=
  manager_of (scripted (ok_json metadata_ep1) (ok_json (submitted_b1 "inProgress"))
                       [ok_json (status "failure")]).

(** A metadata answer without the endpoint properties. *)
Definition no_endpoint_run : LakehouseSyncManager :=
  manager_of (scripted (ok_json (JObj [("id", JStr "lh"); ("properties", JObj [])]))
                       (ok_json (submitted_b1 "inProgress")) []).

(** A client whose first read is refused. *)
Definition refused_run : LakehouseSyncManager :=
  manager_of (scripted (Responds (Response 403 None))
                       (ok_json (submitted_b1 "inProgress")) []).

(** A metadata read refused although the answer carries the endpoint. *)
Definition refused_with_body_run : LakehouseSyncManager :=
  manager_of (scripted (Responds (Response 404 (Some metadata_ep1)))
                       (ok_json (submitted_b1 "inProgress")) []).

(** A submission answered without a batch id. *)
Definition no_batch_run : LakehouseSyncManager :=
  manager_of (scripted (ok_json metadata_ep1)
                       (ok_json (JObj [("progressState", JStr "inProgress")])) []).

(** A job whose second status read is refused. *)
Definition broken_poll_run : LakehouseSyncManager :=
  manager_of (scripted (ok_json metadata_ep1) (ok_json (submitted_b1 "inProgress"))
                       [ok_json (status "inProgress"); Responds (Response 500 None)]).

(** A job that ends in a state the program does not know. *)
Definition cancelled_run : LakehouseSyncManager :=
  manager_of (scripted (ok_json metadata_ep1) (ok_json (submitted_b1 "inProgress"))
                       [ok_json (status "inProgress"); ok_json (status "cancelled")]).

End Spec.

(** * Properties

    The polling loop first, then the orchestrator and the reporter, then the
    calendar and the time localizer. *)

Import Sync Spec.

(** ** The polling loop *)

Section Polling.
Context {rt : Runtime}.
Variable self : LakehouseSyncManager.
Variable status_uri : string.

Lemma cycles_snoc n :
  cycles status_uri (S n) = (cycles status_uri n ++ cycle status_uri)%list.
Proof.
  induction n as [|n IH]; [reflexivity|].
  change (cycles status_uri (S (S n)))
    with (cycle status_uri ++ cycles status_uri (S n))%list.
  rewrite IH at 1. simpl. reflexivity.
Qed.

(** One round of the loop, read off the reply to its status read. *)
Lemma poll_loop_step fuel t :
  poll_loop (S fuel) self status_uri t =
  match reported (client self (t ++ [Sleep 1])%list (GET status_uri)) with
  | Err e => (Throws e, (t ++ cycle status_uri)%list)
  | Ok (payload, state) =>
      if eq_str state "inProgress"
      then poll_loop fuel self status_uri (t ++ cycle status_uri)%list
      else (Returns payload, (t ++ cycle status_uri)%list)
  end.
Proof.
  unfold cycle. replace (t ++ [Sleep 1; Request (GET status_uri)])%list
    with ((t ++ [Sleep 1]) ++ [Request (GET status_uri)])%list
    by (rewrite <- app_assoc; reflexivity).
  cbn [poll_loop]. unfold bind, time_sleep, emit, send, reported.
  destruct (client self (t ++ [Sleep 1])%list (GET status_uri)) as [resp|e];
    [|reflexivity].
  unfold raise_for_status, response_json.
  destruct ((400 <=? status_code resp) && (status_code resp <? 600));
    [reflexivity|].
  unfold ret. destruct (body resp) as [payload|]; [|reflexivity].
  destruct (getitem payload "progressState") as [state|e]; cbn [lift];
    unfold ret, raise; [|reflexivity].
  destruct (eq_str state "inProgress"); reflexivity.
Qed.

(** While the reads report ['inProgress'] the loop goes round. *)
Lemma poll_loop_in_progress n : forall fuel t,
  (forall k, (k < n)%nat -> in_progress (status_read self status_uri t k) = true) ->
  poll_loop (n + fuel) self status_uri t =
  poll_loop fuel self status_uri (t ++ cycles status_uri n)%list.
Proof.
  induction n as [|n IH]; intros fuel t H.
  - simpl. rewrite app_nil_r. reflexivity.
  - change (S n + fuel)%nat with (S (n + fuel)). rewrite poll_loop_step.
    pose proof (H O ltac:(lia)) as H0.
    unfold status_read, in_progress in H0. simpl cycles in H0.
    destruct (reported _) as [[payload state]|e]; [|discriminate].
    rewrite H0. rewrite IH.
    + simpl cycles. rewrite <- app_assoc. reflexivity.
    + intros k Hk. specialize (H (S k) ltac:(lia)).
      unfold status_read in *. simpl cycles in H.
      rewrite <- !app_assoc in *. exact H.
Qed.

Lemma poll_loop_running fuel t :
  (forall k, (k < fuel)%nat -> in_progress (status_read self status_uri t k) = true) ->
  poll_loop fuel self status_uri t = (Running, (t ++ cycles status_uri fuel)%list).
Proof.
  intro H. replace fuel with (fuel + 0)%nat at 1 by lia.
  rewrite poll_loop_in_progress by exact H. reflexivity.
Qed.

(** The first read that is not ['inProgress'] ends the loop. *)
Lemma poll_loop_stops n fuel t :
  (forall k, (k < n)%nat -> in_progress (status_read self status_uri t k) = true) ->
  in_progress (status_read self status_uri t n) = false ->
  (n < fuel)%nat ->
  poll_loop fuel self status_uri t =
  (match reported (status_read self status_uri t n) with
   | Ok (payload, _) => Returns payload
   | Err e => Throws e
   end, (t ++ cycles status_uri (S n))%list).
Proof.
  intros Hbefore Hn Hfuel.
  replace fuel with (n + S (fuel - S n))%nat by lia.
  rewrite poll_loop_in_progress by exact Hbefore.
  rewrite poll_loop_step. rewrite cycles_snoc, app_assoc.
  unfold in_progress, status_read in *. rewrite <- app_assoc.
  destruct (reported _) as [[payload state]|e]; [|reflexivity].
  rewrite Hn. reflexivity.
Qed.

End Polling.

(** ** Stages and their traces *)

Section Orchestrator.
Context {rt : Runtime}.

Lemma silent_nil : silent [].
Proof. split; reflexivity. Qed.

Lemma silent_app evs1 evs2 : silent evs1 -> silent evs2 -> silent (evs1 ++ evs2)%list.
Proof.
  intros [L1 P1] [L2 P2]. unfold silent.
  rewrite !filter_app, L1, L2, P1, P2. split; reflexivity.
Qed.

Lemma silent_cycles uri n : silent (cycles uri n).
Proof.
  induction n as [|n IH]; [apply silent_nil|].
  change (cycles uri (S n)) with (cycle uri ++ cycles uri n)%list.
  apply silent_app; [split; reflexivity | exact IH].
Qed.

Lemma lift_trace {A} (r : result A) t : snd (lift r t) = t.
Proof. destruct r; reflexivity. Qed.

(** The resolver makes its one read and nothing else. *)
Lemma fetch_trace self t :
  snd (fetch_sql_endpoint_id self t) = (t ++ [Request (GET (lakehouse_uri self))])%list.
Proof.
  unfold fetch_sql_endpoint_id, bind, send. fold (lakehouse_uri self).
  destruct (client self t (GET (lakehouse_uri self))) as [resp|e]; [|reflexivity].
  unfold raise_for_status.
  destruct ((400 <=? status_code resp) && (status_code resp <? 600)); [reflexivity|].
  unfold ret, response_json.
  destruct (body resp) as [info|]; [|reflexivity].
  unfold ret. apply lift_trace.
Qed.

(** The initiator makes its one submission and nothing else. *)
Lemma initiate_trace self id t :
  snd (initiate_sync self id t) = (t ++ [Request (refresh_request id)])%list.
Proof.
  unfold initiate_sync, bind, send. fold (refresh_request id).
  destruct (client self t (refresh_request id)) as [resp|e]; [|reflexivity].
  unfold raise_for_status.
  destruct ((400 <=? status_code resp) && (status_code resp <? 600)); [reflexivity|].
  unfold ret, response_json.
  destruct (body resp) as [data|]; [|reflexivity].
  unfold ret. apply lift_trace.
Qed.

(** The poller only sleeps and reads, in rounds. *)
Lemma poll_trace self uri fuel : forall t,
  exists n, (n <= fuel)%nat
            /\ snd (poll_loop fuel self uri t) = (t ++ cycles uri n)%list.
Proof.
  induction fuel as [|fuel IH]; intro t.
  - exists O. split; [lia|]. simpl. rewrite app_nil_r. reflexivity.
  - rewrite poll_loop_step.
    destruct (reported _) as [[payload state]|e].
    + destruct (eq_str state "inProgress").
      * destruct (IH (t ++ cycle uri)%list) as [n [Hn Ht]].
        exists (S n). split; [lia|]. rewrite Ht. simpl cycles.
        rewrite <- app_assoc. reflexivity.
      * exists 1%nat. split; [lia|]. reflexivity.
    + exists 1%nat. split; [lia|]. reflexivity.
Qed.

Lemma print_details_returns details t :
  print_details details t = (Returns tt, (t ++ map (fun d => Printed (detail_line d)) details)%list).
Proof.
  revert t. induction details as [|d rest IH]; intro t.
  - simpl. rewrite app_nil_r. reflexivity.
  - simpl. unfold bind, print, emit. rewrite IH. rewrite <- app_assoc. reflexivity.
Qed.

(** The reporter, case by case. *)
Lemma report_cases status_data t :
  report status_data t =
  match getitem status_data "progressState" with
  | Err e => (Throws e, t)
  | Ok state =>
      if eq_str state "success" then
        match table_details_of status_data with
        | Ok details =>
            (Returns tt, (t ++ map (fun d => Printed (detail_line d)) details)%list)
        | Err e => (Throws e, t)
        end
      else if eq_str state "failure" then
        (Returns tt, (t ++ [Log ERROR ("Sync failed: " ++ py_str status_data)])%list)
      else
        (Returns tt, (t ++ [Log WARNING ("Unexpected state: " ++ py_str state)])%list)
  end.
Proof.
  unfold report, bind.
  destruct (getitem status_data "progressState") as [state|e]; [|reflexivity].
  cbn [lift]. unfold ret at 1.
  destruct (eq_str state "success").
  - fold (table_details_of status_data).
    destruct (table_details_of status_data) as [details|e]; [|reflexivity].
    cbn [lift]. unfold ret. apply print_details_returns.
  - unfold ret at 1. destruct (eq_str state "failure"); [reflexivity|].
    unfold ret at 1. reflexivity.
Qed.

Lemma report_throws status_data t e t' :
  report status_data t = (Throws e, t') -> t' = t.
Proof.
  rewrite report_cases.
  destruct (getitem status_data "progressState") as [state|e0].
  - destruct (eq_str state "success").
    + destruct (table_details_of status_data); intro H; inversion H; reflexivity.
    + destruct (eq_str state "failure"); intro H; inversion H.
  - intro H; inversion H; reflexivity.
Qed.

Lemma handler_returns e t : handler e t = (Returns tt, (t ++ [diagnostic e])%list).
Proof. destruct e; reflexivity. Qed.

Lemma sync_lakehouse_cases fuel self t :
  sync_lakehouse fuel self t =
  match sync_steps fuel self t with
  | (Throws e, t') => (Returns tt, (t' ++ [diagnostic e])%list)
  | done => done
  end.
Proof.
  unfold sync_lakehouse. destruct (sync_steps fuel self t) as [[u|e|] t'];
    try reflexivity. apply handler_returns.
Qed.

(** The steps, stage by stage. *)
Lemma sync_steps_cases fuel self t :
  sync_steps fuel self t =
  match fetch_sql_endpoint_id self t with
  | (Returns id, t1) =>
      match initiate_sync self id t1 with
      | (Returns (batch, _), t2) =>
          match poll_sync_status fuel self id batch t2 with
          | (Returns status_data, t3) => report status_data t3
          | (Throws e, t3) => (Throws e, t3)
          | (Running, t3) => (Running, t3)
          end
      | (Throws e, t2) => (Throws e, t2)
      | (Running, t2) => (Running, t2)
      end
  | (Throws e, t1) => (Throws e, t1)
  | (Running, t1) => (Running, t1)
  end.
Proof.
  unfold sync_steps, bind.
  destruct (fetch_sql_endpoint_id self t) as [[id|e|] t1]; try reflexivity.
  destruct (initiate_sync self id t1) as [[[batch state]|e|] t2]; reflexivity.
Qed.

End Orchestrator.

(** ** The orchestrator, the poller and the reporter *)

Section Runs.
Context {rt : Runtime}.

Lemma fetch_returned self t o t1 :
  fetch_sql_endpoint_id self t = (o, t1) ->
  t1 = (t ++ [Request (GET (lakehouse_uri self))])%list.
Proof. intro H. rewrite <- (fetch_trace self t), H. reflexivity. Qed.

Lemma initiate_returned self id t o t1 :
  initiate_sync self id t = (o, t1) ->
  t1 = (t ++ [Request (refresh_request id)])%list.
Proof. intro H. rewrite <- (initiate_trace self id t), H. reflexivity. Qed.

Lemma poll_returned fuel self id batch t o t1 :
  poll_sync_status fuel self id batch t = (o, t1) ->
  exists n, t1 = (t ++ cycles (status_uri_of id batch) n)%list.
Proof.
  unfold poll_sync_status. fold (status_uri_of id batch). intro H.
  destruct (poll_trace self (status_uri_of id batch) fuel t) as [n [_ Hn]].
  exists n. rewrite <- Hn, H. reflexivity.
Qed.

(** C1. [sync_lakehouse] never lets a fault out: whatever the stage a fault
    is raised at (resolver, initiator, poller or reporter) and whatever the
    fault, the run returns normally, and what it logged is the one
    diagnostic for that fault, after a run that had logged and printed
    nothing. *)
Theorem sync_lakehouse_funnels_faults (fuel : nat) (self : LakehouseSyncManager) (t : trace) :
  (forall e t', sync_lakehouse fuel self t <> (Throws e, t'))
  /\ (forall s e t',
        fault_at fuel self t s e t' ->
        exists evs,
          silent evs
          /\ t' = (t ++ evs)%list
          /\ is_log (diagnostic e) = true
          /\ sync_lakehouse fuel self t = (Returns tt, (t ++ evs ++ [diagnostic e])%list)).
Proof.
  split.
  - intros e t'. rewrite sync_lakehouse_cases.
    destruct (sync_steps fuel self t) as [[u|e0|] t0]; discriminate.
  - intros s e t' H.
    assert (Hlog : is_log (diagnostic e) = true) by (destruct e; reflexivity).
    rewrite sync_lakehouse_cases, sync_steps_cases.
    destruct s; cbn [fault_at] in H.
    + rewrite H. pose proof (fetch_returned _ _ _ _ H) as ->.
      eexists. repeat split; [ | | exact Hlog | rewrite <- app_assoc; reflexivity ];
        reflexivity.
    + destruct H as (id & t1 & Hf & Hi). rewrite Hf, Hi.
      pose proof (fetch_returned _ _ _ _ Hf) as ->.
      pose proof (initiate_returned _ _ _ _ _ Hi) as ->.
      exists [Request (GET (lakehouse_uri self)); Request (refresh_request id)].
      repeat split; [ | exact Hlog | ]; rewrite <- !app_assoc; reflexivity.
    + destruct H as (id & t1 & batch & state & t2 & Hf & Hi & Hp).
      rewrite Hf, Hi, Hp.
      pose proof (fetch_returned _ _ _ _ Hf) as ->.
      pose proof (initiate_returned _ _ _ _ _ Hi) as ->.
      destruct (poll_returned _ _ _ _ _ _ _ Hp) as [n ->].
      exists ([Request (GET (lakehouse_uri self)); Request (refresh_request id)]
              ++ cycles (status_uri_of id batch) n)%list.
      split; [|split; [|split]].
      * apply silent_app; [split; reflexivity | apply silent_cycles].
      * rewrite <- !app_assoc. reflexivity.
      * exact Hlog.
      * rewrite <- !app_assoc. reflexivity.
    + destruct H as (id & t1 & batch & state & t2 & sd & t3 & Hf & Hi & Hp & Hr).
      rewrite Hf, Hi, Hp, Hr.
      pose proof (report_throws _ _ _ _ Hr) as ->.
      pose proof (fetch_returned _ _ _ _ Hf) as ->.
      pose proof (initiate_returned _ _ _ _ _ Hi) as ->.
      destruct (poll_returned _ _ _ _ _ _ _ Hp) as [n ->].
      exists ([Request (GET (lakehouse_uri self)); Request (refresh_request id)]
              ++ cycles (status_uri_of id batch) n)%list.
      split; [|split; [|split]].
      * apply silent_app; [split; reflexivity | apply silent_cycles].
      * rewrite <- !app_assoc. reflexivity.
      * exact Hlog.
      * rewrite <- !app_assoc. reflexivity.
Qed.

(** C2. Whatever state the initiator reported, the poller sleeps and reads
    at least once; while the reads report ['inProgress'] it has not
    returned, and at the first read that reports another state it returns
    that read's whole payload, which is what the reporter is given. *)
Theorem poller_returns_first_settled_read
        (self : LakehouseSyncManager) (t t1 t2 : trace)
        (id batch initial payload state : json) (n : nat) :
  fetch_sql_endpoint_id self t = (Returns id, t1) ->
  initiate_sync self id t1 = (Returns (batch, initial), t2) ->
  (forall k, (k < n)%nat ->
             in_progress (status_read self (status_uri_of id batch) t2 k) = true) ->
  reported (status_read self (status_uri_of id batch) t2 n) = Ok (payload, state) ->
  eq_str state "inProgress" = false ->
  (forall fuel, (fuel <= n)%nat ->
     poll_sync_status fuel self id batch t2
     = (Running, (t2 ++ cycles (status_uri_of id batch) fuel)%list))
  /\ (forall fuel, (n < fuel)%nat ->
        poll_sync_status fuel self id batch t2
        = (Returns payload,
           (t2 ++ cycle (status_uri_of id batch) ++ cycles (status_uri_of id batch) n)%list)
        /\ sync_steps fuel self t
           = report payload
               (t2 ++ cycle (status_uri_of id batch) ++ cycles (status_uri_of id batch) n)%list).
Proof.
  intros Hf Hi Hbefore Hn Hstate.
  unfold poll_sync_status. fold (status_uri_of id batch).
  split.
  - intros fuel Hfuel. apply poll_loop_running.
    intros k Hk. apply Hbefore. lia.
  - intros fuel Hfuel.
    assert (Hp : poll_loop fuel self (status_uri_of id batch) t2
                 = (Returns payload,
                    (t2 ++ cycle (status_uri_of id batch)
                        ++ cycles (status_uri_of id batch) n)%list)).
    { rewrite (poll_loop_stops self _ n fuel t2 Hbefore); [|  | exact Hfuel].
      - rewrite Hn. reflexivity.
      - unfold in_progress. rewrite Hn. exact Hstate. }
    split; [exact Hp|].
    rewrite sync_steps_cases, Hf, Hi.
    unfold poll_sync_status. fold (status_uri_of id batch). rewrite Hp. reflexivity.
Qed.

(** C4. On a final payload whose state is not ['success'] the reporter
    prints no table line and logs one diagnostic: the payload when the state
    is ['failure'], the state itself otherwise. *)
Theorem report_failure_or_unexpected (status_data state : json) (t : trace) :
  getitem status_data "progressState" = Ok state ->
  eq_str state "success" = false ->
  report status_data t
  = (Returns tt,
     (t ++ [if eq_str state "failure"
            then Log ERROR ("Sync failed: " ++ py_str status_data)
            else Log WARNING ("Unexpected state: " ++ py_str state)])%list)
  /\ (forall s, state = JStr s -> s <> "failure" ->
        report status_data t
        = (Returns tt, (t ++ [Log WARNING ("Unexpected state: " ++ s)])%list)).
Proof.
  intros Hstate Hnot. rewrite report_cases, Hstate, Hnot.
  split.
  - destruct (eq_str state "failure"); reflexivity.
  - intros s -> Hs. cbn [eq_str].
    destruct (String.eqb_spec s "failure") as [E|_]; [contradiction|]. reflexivity.
Qed.

Lemma first_settled (f : nat -> bool) : forall n,
  f n = false ->
  exists m, (m <= n)%nat /\ f m = false /\ forall k, (k < m)%nat -> f k = true.
Proof.
  induction n as [n IH] using lt_wf_ind. intro Hn.
  destruct (existsb (fun k => negb (f k)) (seq 0 n)) eqn:E.
  - apply existsb_exists in E. destruct E as [k [Hin Hk]].
    apply in_seq in Hin. apply negb_true_iff in Hk.
    destruct (IH k ltac:(lia) Hk) as [m [Hm [Hfm Hlt]]].
    exists m. repeat split; [lia | exact Hfm | exact Hlt].
  - exists n. repeat split; [lia | exact Hn |].
    intros k Hk. destruct (f k) eqn:Ek; [reflexivity|].
    assert (existsb (fun k => negb (f k)) (seq 0 n) = true) as E'.
    { apply existsb_exists. exists k. split; [apply in_seq; lia|]. rewrite Ek. reflexivity. }
    congruence.
Qed.

(** C8. Each round of the poller is a sleep of one unit followed by one
    status read, and nothing bounds the number of rounds: if every read
    reports ['inProgress'], then after any number of rounds the poller is
    still running; if some read does not, the poller stops at the first such
    read. *)
Theorem poller_fixed_interval_unbounded
        (self : LakehouseSyncManager) (id batch : json) (t : trace) :
  ((forall k, in_progress (status_read self (status_uri_of id batch) t k) = true) ->
   forall fuel,
     poll_sync_status fuel self id batch t
     = (Running, (t ++ cycles (status_uri_of id batch) fuel)%list))
  /\ (forall n,
        in_progress (status_read self (status_uri_of id batch) t n) = false ->
        exists m, (m <= n)%nat /\
          forall fuel, (m < fuel)%nat ->
            exists o,
              o <> Running
              /\ poll_sync_status fuel self id batch t
                 = (o, (t ++ cycles (status_uri_of id batch) (S m))%list)).
Proof.
  unfold poll_sync_status. fold (status_uri_of id batch). split.
  - intros H fuel. apply poll_loop_running. intros k _. apply H.
  - intros n Hn.
    destruct (first_settled
                (fun k => in_progress (status_read self (status_uri_of id batch) t k))
                n Hn) as [m [Hm [Hfm Hlt]]].
    exists m. split; [exact Hm|]. intros fuel Hfuel.
    rewrite (poll_loop_stops self _ m fuel t Hlt Hfm Hfuel).
    eexists. split; [|reflexivity].
    destruct (reported _) as [[payload state]|e]; discriminate.
Qed.

(** C9. A metadata answer whose [properties] lack [sqlEndpointProperties]
    ends the run normally after the one read, with the diagnostic for the
    missing key and no table line. *)
Theorem missing_endpoint_properties
        (fuel : nat) (self : LakehouseSyncManager) (t : trace)
        (resp : response) (info : json) (fields : list (string * json)) :
  client self t (GET (lakehouse_uri self)) = Responds resp ->
  (400 <=? status_code resp) && (status_code resp <? 600) = false ->
  body resp = Some info ->
  getitem info "properties" = Ok (JObj fields) ->
  lookup "sqlEndpointProperties" fields = None ->
  sync_lakehouse fuel self t
  = (Returns tt,
     (t ++ [Request (GET (lakehouse_uri self));
            Log ERROR ("An unexpected error occurred: "
                       ++ str_exn (KeyError (JStr "sqlEndpointProperties")))])%list).
Proof.
  intros Hc Hs Hb Hp Hl.
  assert (Hf : fetch_sql_endpoint_id self t
               = (Throws (KeyError (JStr "sqlEndpointProperties")),
                  (t ++ [Request (GET (lakehouse_uri self))])%list)).
  { unfold fetch_sql_endpoint_id, bind, send. fold (lakehouse_uri self).
    rewrite Hc. unfold raise_for_status. rewrite Hs. unfold ret, response_json.
    rewrite Hb. unfold ret. rewrite Hp. cbn [rbind getitem]. rewrite Hl. reflexivity. }
  rewrite sync_lakehouse_cases, sync_steps_cases, Hf.
  rewrite <- app_assoc. reflexivity.
Qed.

Lemma poll_loop_same_reads self1 self2 uri :
  (forall h u, client self1 h (GET u) = client self2 h (GET u)) ->
  forall fuel t, poll_loop fuel self1 uri t = poll_loop fuel self2 uri t.
Proof.
  intros H fuel. induction fuel as [|fuel IH]; intro t; [reflexivity|].
  rewrite !poll_loop_step, H.
  destruct (reported _) as [[payload state]|e]; [|reflexivity].
  rewrite IH. reflexivity.
Qed.

(** C10. The state the initiator reports is thrown away: two runs whose
    clients differ in nothing but that state go through the same events and
    end alike. *)
Theorem initial_state_is_discarded
        (fuel : nat) (self1 self2 : LakehouseSyncManager) (t : trace) :
  same_but_initial_state self1 self2 ->
  sync_lakehouse fuel self1 t = sync_lakehouse fuel self2 t.
Proof.
  intros (Hw & Hl & Hget & Hpost).
  rewrite !sync_lakehouse_cases.
  assert (Hsteps : sync_steps fuel self1 t = sync_steps fuel self2 t);
    [|rewrite Hsteps; reflexivity].
  rewrite !sync_steps_cases.
  assert (Hfetch : fetch_sql_endpoint_id self1 t = fetch_sql_endpoint_id self2 t).
  { unfold fetch_sql_endpoint_id, bind, send. rewrite Hw, Hl, Hget. reflexivity. }
  rewrite Hfetch.
  destruct (fetch_sql_endpoint_id self2 t) as [[id|e|] t1]; try reflexivity.
  assert (Hinit :
    match initiate_sync self1 id t1, initiate_sync self2 id t1 with
    | (Returns (b1, _), u1), (Returns (b2, _), u2) => b1 = b2 /\ u1 = u2
    | r1, r2 => r1 = r2
    end).
  { unfold initiate_sync, bind, send. fold (refresh_request id).
    destruct (Hpost t1 ("/v1.0/myorg/lhdatamarts/" ++ py_str id)
                (JObj [("commands", JArr [JObj [("$type", JStr "MetadataRefreshCommand")]])]))
      as [E | (code & d1 & d2 & E1 & E2 & Hb & [s1 Hs1] & [s2 Hs2])];
      fold (refresh_request id) in *.
    - rewrite E.
      destruct (client self2 t1 (refresh_request id)) as [resp|e]; [|reflexivity].
      destruct (raise_for_status resp _) as [[u|e|] t']; try reflexivity.
      destruct (response_json resp t') as [[data|e|] t'']; try reflexivity.
      destruct (lift _ t'') as [[[b s]|e|] t3]; try reflexivity. split; reflexivity.
    - rewrite E1, E2. unfold raise_for_status. cbn [status_code].
      destruct ((400 <=? code) && (code <? 600)); [reflexivity|].
      unfold ret, response_json. cbn [body]. unfold ret.
      rewrite Hb, Hs1, Hs2.
      destruct (getitem d2 "batchId") as [b|e]; cbn; [split|]; reflexivity. }
  destruct (initiate_sync self1 id t1) as [[[b1 s1]|e1|] u1];
    destruct (initiate_sync self2 id t1) as [[[b2 s2]|e2|] u2];
    try discriminate Hinit.
  - destruct Hinit as [-> ->].
    unfold poll_sync_status. rewrite (poll_loop_same_reads self1 self2 _ Hget).
    reflexivity.
  - injection Hinit as -> ->. reflexivity.
  - injection Hinit as ->. reflexivity.
Qed.

End Runs.

(** ** The calendar *)

Ltac table_lookups :=
  repeat match goal with
         | |- context [nth ?a ?l ?d] =>
             let v := eval vm_compute in (nth a l d) in change (nth a l d) with v
         | H : context [nth ?a ?l ?d] |- _ =>
             let v := eval vm_compute in (nth a l d) in change (nth a l d) with v in H
         end.

Section Calendar.

Lemma all_from_spec p : forall count i,
  all_from i count p = true ->
  forall k, i <= k < i + Z.of_nat count -> p k = true.
Proof.
  induction count as [|c IH]; intros i H k Hk; [lia|].
  cbn [all_from] in H. destruct (p i) eqn:E; [|discriminate].
  destruct (Z.eq_dec k i) as [->|Hne]; [exact E|].
  apply (IH (i + 1) H). lia.
Qed.

Lemma days_of_year_checked :
  all_from 0 365 (day_of_year_ok false) && all_from 0 365 (day_of_year_ok true) = true.
Proof. vm_compute. reflexivity. Qed.

Lemma day_of_year leapyear r :
  0 <= r < 365 -> day_of_year_ok leapyear r = true.
Proof.
  intro H. pose proof days_of_year_checked as Hc.
  apply andb_true_iff in Hc. destruct Hc as [Hf Ht].
  destruct leapyear; [apply (all_from_spec _ _ _ Ht) | apply (all_from_spec _ _ _ Hf)];
    lia.
Qed.

(** The year part of [ord2ymd], by arithmetic. *)
Lemma year_of_ordinal n :
  1 <= n <= MAXORDINAL ->
  let a := (n - 1) mod DI400Y in
  let b := a mod DI100Y in
  let c := b mod DI4Y in
  let n400 := (n - 1) / DI400Y in
  let n100 := a / DI100Y in
  let n4 := b / DI4Y in
  let n1 := c / 365 in
  let r := c mod 365 in
  let y := n400 * 400 + 1 + n100 * 100 + n4 * 4 + n1 in
  0 <= r < 365
  /\ if (n1 =? 4) || (n100 =? 4)
     then 1 <= y - 1 <= 9999 /\ is_leap (y - 1) = true
          /\ days_before_year (y - 1) + 366 = n
     else 1 <= y <= 9999
          /\ is_leap y = ((n1 =? 3) && (negb (n4 =? 24) || (n100 =? 3)))
          /\ days_before_year y + r + 1 = n.
Proof.
  intro Hn. cbv zeta. unfold MAXORDINAL, DI400Y, DI100Y, DI4Y, is_leap, days_before_year in *.
  cbv zeta.
  split; [apply Z.mod_pos_bound; lia|].
  destruct ((_ =? 4) || (_ =? 4)) eqn:Hspecial.
  - apply orb_true_iff in Hspecial. rewrite !Z.eqb_eq in Hspecial.
    split; [Z.div_mod_to_equations; lia|]. split.
    + rewrite andb_true_iff, orb_true_iff, negb_true_iff, Z.eqb_neq, !Z.eqb_eq.
      Z.div_mod_to_equations. lia.
    + Z.div_mod_to_equations. lia.
  - apply orb_false_iff in Hspecial. rewrite !Z.eqb_neq in Hspecial.
    split; [Z.div_mod_to_equations; lia|]. split.
    + apply eq_true_iff_eq.
      rewrite !andb_true_iff, !orb_true_iff, !negb_true_iff, !Z.eqb_neq, !Z.eqb_eq.
      Z.div_mod_to_equations. lia.
    + Z.div_mod_to_equations. lia.
Qed.

Lemma ord2ymd_in_range n :
  1 <= n <= MAXORDINAL ->
  let '(y, m, d) := ord2ymd n in
  ymd2ord y m d = n
  /\ 1 <= y <= 9999 /\ 1 <= m <= 12 /\ 1 <= d <= days_in_month y m.
Proof.
  intro Hn. pose proof (year_of_ordinal n Hn) as H. cbv zeta in H.
  destruct H as [Hr H].
  unfold ord2ymd. cbv zeta.
  set (a := (n - 1) mod DI400Y) in *.
  set (b := a mod DI100Y) in *.
  set (c := b mod DI4Y) in *.
  set (n400 := (n - 1) / DI400Y) in *.
  set (n100 := a / DI100Y) in *.
  set (n4 := b / DI4Y) in *.
  set (n1 := c / 365) in *.
  set (r := c mod 365) in *.
  set (y := n400 * 400 + 1 + n100 * 100 + n4 * 4 + n1) in *.
  destruct ((n1 =? 4) || (n100 =? 4)).
  - destruct H as (Hy & Hleap & Hord).
    unfold ymd2ord, days_before_month, days_in_month. rewrite Hleap.
    table_lookups. cbn [Z.ltb Z.eqb Z.compare Pos.compare Pos.compare_cont andb Pos.eqb].
    repeat apply conj; lia.
  - destruct H as (Hy & Hleap & Hord).
    set (leapyear := (n1 =? 3) && (negb (n4 =? 24) || (n100 =? 3))) in *.
    pose proof (day_of_year leapyear r Hr) as Hdoy.
    unfold day_of_year_ok, month_day in Hdoy. cbv zeta in Hdoy.
    set (month := Z.shiftr (r + 50) 5) in *.
    destruct (r <? _).
    + rewrite !andb_true_iff in Hdoy.
      destruct Hdoy as [[[[H1 H2] H3] H4] H5].
      unfold ymd2ord, days_before_month, days_in_month. rewrite Hleap.
      repeat apply conj; lia.
    + rewrite !andb_true_iff in Hdoy.
      destruct Hdoy as [[[[H1 H2] H3] H4] H5].
      unfold ymd2ord, days_before_month, days_in_month. rewrite Hleap.
      repeat apply conj; lia.
Qed.

End Calendar.

Section Arithmetic.

Lemma month_cases m : 1 <= m <= 12 ->
  m = 1 \/ m = 2 \/ m = 3 \/ m = 4 \/ m = 5 \/ m = 6
  \/ m = 7 \/ m = 8 \/ m = 9 \/ m = 10 \/ m = 11 \/ m = 12.
Proof. lia. Qed.

Lemma day_of_year_bounds y m d :
  1 <= m <= 12 -> 1 <= d <= days_in_month y m ->
  1 <= days_before_month y m + d <= 365 + (if is_leap y then 1 else 0).
Proof.
  intros Hm Hd. unfold days_in_month, days_before_month in *.
  destruct (month_cases m Hm) as [E|[E|[E|[E|[E|[E|[E|[E|[E|[E|[E|E]]]]]]]]]]];
    subst m; destruct (is_leap y); table_lookups;
    cbn [Z.ltb Z.eqb Z.compare Pos.compare Pos.compare_cont andb Pos.eqb] in *; lia.
Qed.

Lemma days_before_year_bounds y :
  1 <= y <= 9999 ->
  0 <= days_before_year y
  /\ (2 <= y -> 365 <= days_before_year y)
  /\ (y <= 9998 -> days_before_year y + 366 < MAXORDINAL)
  /\ (y = 9999 -> days_before_year y + 365 = MAXORDINAL).
Proof.
  intro Hy. unfold days_before_year, MAXORDINAL. cbv zeta.
  repeat split; intros; try subst y; try reflexivity;
    Z.div_mod_to_equations; lia.
Qed.

Lemma ymd2ord_bounds y m d :
  1 <= y <= 9999 -> 1 <= m <= 12 -> 1 <= d <= days_in_month y m ->
  1 <= ymd2ord y m d <= MAXORDINAL
  /\ (2 <= y -> 1 < ymd2ord y m d)
  /\ (y <= 9998 -> ymd2ord y m d < MAXORDINAL).
Proof.
  intros Hy Hm Hd. unfold ymd2ord.
  pose proof (day_of_year_bounds y m d Hm Hd) as Hdoy.
  destruct (days_before_year_bounds y Hy) as (H0 & H2 & H98 & H99).
  assert (Hleap : 0 <= (if is_leap y then 1 else 0) <= 1)
    by (destruct (is_leap y); lia).
  destruct (Z.eq_dec y 9999) as [E|E].
  - specialize (H99 E). subst y.
    change (is_leap 9999) with false in Hdoy. lia.
  - specialize (H98 ltac:(lia)). lia.
Qed.

Lemma time_of_day_bounds hh mm ss us :
  0 <= hh <= 23 -> 0 <= mm <= 59 -> 0 <= ss <= 59 -> 0 <= us <= 999999 ->
  0 <= (hh * 3600 + mm * 60 + ss) * us_per_second + us < us_per_day.
Proof. unfold us_per_day, us_per_second. lia. Qed.

(** In range, addition lands on the reading that many microseconds later. *)
Lemma add_in_range dt delta :
  us_per_day <= to_us dt + delta < (MAXORDINAL + 1) * us_per_day ->
  exists r,
    add dt delta = Ok r
    /\ to_us r = to_us dt + delta
    /\ tz r = tz dt
    /\ microsecond r = (to_us dt + delta) mod us_per_second
    /\ stamp_ok (stamp_of r) = true
    /\ 0 <= hour r /\ 0 <= minute r /\ 0 <= second r.
Proof.
  intro H. unfold add. set (total := to_us dt + delta) in *.
  assert (Hdays : 1 <= total / us_per_day <= MAXORDINAL).
  { unfold us_per_day, us_per_second, MAXORDINAL in *.
    Z.div_mod_to_equations. lia. }
  replace ((0 <? total / us_per_day) && (total / us_per_day <=? MAXORDINAL))
    with true by (symmetry; apply andb_true_iff; split; lia).
  pose proof (ord2ymd_in_range _ Hdays) as Hymd.
  destruct (ord2ymd (total / us_per_day)) as [[y m] d].
  destruct Hymd as (Hord & Hy & Hm & Hd).
  eexists. split; [reflexivity|].
  unfold to_us, stamp_ok, stamp_of. cbn [year month day hour minute second microsecond tz
                                          s_year s_month s_day s_hour s_minute s_second].
  rewrite Hord.
  assert (Hrest : 0 <= total mod us_per_day < us_per_day)
    by (apply Z.mod_pos_bound; reflexivity).
  set (rest := total mod us_per_day) in *.
  pose proof (Z.div_mod total us_per_day ltac:(unfold us_per_day, us_per_second; lia)) as Hdm.
  fold rest in Hdm.
  assert (Hsecs : 0 <= rest / us_per_second < 86400).
  { unfold us_per_day, us_per_second in *. Z.div_mod_to_equations. lia. }
  set (secs := rest / us_per_second) in *.
  assert (Hmod : total mod us_per_second = rest mod us_per_second).
  { unfold rest, us_per_day, us_per_second. Z.div_mod_to_equations. lia. }
  split; [|split; [reflexivity|split; [symmetry; exact Hmod|]]].
  - pose proof (Z.div_mod rest us_per_second ltac:(unfold us_per_second; lia)) as Hdm2.
    fold secs in Hdm2.
    unfold us_per_second in *. Z.div_mod_to_equations. lia.
  - split.
    + rewrite !andb_true_iff. repeat split; try lia; Z.div_mod_to_equations; lia.
    + repeat split; Z.div_mod_to_equations; lia.
Qed.

Lemma add_out_of_range dt delta :
  ~ (us_per_day <= to_us dt + delta < (MAXORDINAL + 1) * us_per_day) ->
  add dt delta = Err (OverflowError "date value out of range").
Proof.
  intro H. unfold add. set (total := to_us dt + delta) in *.
  replace ((0 <? total / us_per_day) && (total / us_per_day <=? MAXORDINAL))
    with false; [reflexivity|].
  symmetry. apply andb_false_iff.
  unfold us_per_day, us_per_second, MAXORDINAL in *.
  destruct (Z.ltb_spec 0 (total / (86400 * 1000000))) as [H1|H1]; [|left; reflexivity].
  right. apply Z.leb_gt. Z.div_mod_to_equations. lia.
Qed.

End Arithmetic.

(** ** Digits and readings *)

Section Digits.

Lemma digit_cases x :
  x mod 10 = 0 \/ x mod 10 = 1 \/ x mod 10 = 2 \/ x mod 10 = 3 \/ x mod 10 = 4
  \/ x mod 10 = 5 \/ x mod 10 = 6 \/ x mod 10 = 7 \/ x mod 10 = 8 \/ x mod 10 = 9.
Proof. pose proof (Z.mod_pos_bound x 10 ltac:(lia)). lia. Qed.

Ltac each_digit x :=
  destruct (digit_cases x) as [E|[E|[E|[E|[E|[E|[E|[E|[E|E]]]]]]]]]; rewrite E.

Lemma digit_val_digit x : digit_val (digit (x mod 10)) = Some (x mod 10).
Proof. each_digit x; reflexivity. Qed.

(** A digit is none of the characters that are not digits. *)
Lemma digit_is_not x c :
  digit_val c = None -> Ascii.eqb (digit (x mod 10)) c = false.
Proof.
  intro H. apply Ascii.eqb_neq. intro E. rewrite <- E, digit_val_digit in H.
  discriminate.
Qed.

Lemma digit_val_inv c a : digit_val c = Some a -> c = digit (a mod 10) /\ 0 <= a <= 9.
Proof.
  unfold digit_val, digit. cbv zeta.
  set (n := Z.of_nat (nat_of_ascii c)).
  destruct ((48 <=? n) && (n <=? 57)) eqn:E; [|discriminate].
  intro H. assert (a = n - 48) as -> by congruence. clear H.
  apply andb_true_iff in E. destruct E as [E1 E2]. apply Z.leb_le in E1, E2.
  split; [|lia]. rewrite Z.mod_small by lia.
  replace (48 + Z.to_nat (n - 48))%nat with (nat_of_ascii c) by (unfold n in *; lia).
  symmetry. apply ascii_nat_embedding.
Qed.

Lemma two_inv a b n :
  two a b = Some n ->
  String a (String b "") = zpad 2 n /\ 0 <= n <= 99.
Proof.
  unfold two. destruct (digit_val a) as [x|] eqn:Ha; [|discriminate].
  destruct (digit_val b) as [y|] eqn:Hb; [|discriminate].
  intro H. assert (n = 10 * x + y) as -> by congruence. clear H.
  destruct (digit_val_inv _ _ Ha) as [-> Hx].
  destruct (digit_val_inv _ _ Hb) as [-> Hy].
  split; [|lia]. cbn [zpad append].
  replace ((10 * x + y) / 10 mod 10) with (x mod 10)
    by (Z.div_mod_to_equations; lia).
  replace ((10 * x + y) mod 10) with (y mod 10)
    by (Z.div_mod_to_equations; lia).
  reflexivity.
Qed.

Lemma four_inv a b c d n :
  four a b c d = Some n ->
  String a (String b (String c (String d ""))) = zpad 4 n /\ 0 <= n <= 9999.
Proof.
  unfold four. destruct (two a b) as [x|] eqn:Hab; [|discriminate].
  destruct (two c d) as [y|] eqn:Hcd; [|discriminate].
  intro H. assert (n = 100 * x + y) as -> by congruence. clear H.
  destruct (two_inv _ _ _ Hab) as [Eab Hx].
  destruct (two_inv _ _ _ Hcd) as [Ecd Hy].
  split; [|lia].
  change (String a (String b (String c (String d ""))))
    with (String a (String b "") ++ String c (String d "")).
  rewrite Eab, Ecd. cbn [zpad append].
  replace ((100 * x + y) / 10 / 10 / 10 mod 10) with (x / 10 mod 10)
    by (Z.div_mod_to_equations; lia).
  replace ((100 * x + y) / 10 / 10 mod 10) with (x mod 10)
    by (Z.div_mod_to_equations; lia).
  replace ((100 * x + y) / 10 mod 10) with (y / 10 mod 10)
    by (Z.div_mod_to_equations; lia).
  replace ((100 * x + y) mod 10) with (y mod 10)
    by (Z.div_mod_to_equations; lia).
  reflexivity.
Qed.

Lemma two_zpad n :
  0 <= n <= 99 -> two (digit (n / 10 mod 10)) (digit (n mod 10)) = Some n.
Proof.
  intro H. unfold two. rewrite !digit_val_digit. f_equal.
  Z.div_mod_to_equations. lia.
Qed.

Lemma four_zpad n :
  0 <= n <= 9999 ->
  four (digit (n / 10 / 10 / 10 mod 10)) (digit (n / 10 / 10 mod 10))
       (digit (n / 10 mod 10)) (digit (n mod 10)) = Some n.
Proof.
  intro H. unfold four, two. rewrite !digit_val_digit. f_equal.
  Z.div_mod_to_equations. lia.
Qed.

(** A text that reads as a stamp is the rendering of that stamp. *)
Lemma read_stamp_render sep s f rest :
  read_stamp sep s = Some (f, rest) ->
  s = render sep f ++ rest
  /\ 0 <= s_year f <= 9999 /\ 0 <= s_month f <= 99 /\ 0 <= s_day f <= 99
  /\ 0 <= s_hour f <= 99 /\ 0 <= s_minute f <= 99 /\ 0 <= s_second f <= 99.
Proof.
  unfold read_stamp.
  do 19 (destruct s as [|? s]; [discriminate|]).
  match goal with
  | |- (if ?c then _ else _) = _ -> _ => destruct c eqn:Hsep; [|discriminate]
  end.
  rewrite !andb_true_iff in Hsep.
  destruct Hsep as [[[[H1 H2] H3] H4] H5].
  apply Ascii.eqb_eq in H1, H2, H3, H4, H5. subst.
  repeat match goal with
         | |- match ?o with Some _ => _ | None => _ end = _ -> _ =>
             let E := fresh "E" in destruct o eqn:E; [|discriminate]
         end.
  intro H. injection H as <- <-.
  repeat match goal with
         | E : four _ _ _ _ = Some _ |- _ => apply four_inv in E; destruct E
         | E : two _ _ = Some _ |- _ => apply two_inv in E; destruct E
         end.
  split; [|cbn [s_year s_month s_day s_hour s_minute s_second]; repeat split; lia].
  unfold render. cbn [s_year s_month s_day s_hour s_minute s_second].
  repeat match goal with
         | E : _ = zpad _ _ |- _ => rewrite <- E; clear E
         end.
  reflexivity.
Qed.

Lemma read_stamp_of_render sep f rest :
  0 <= s_year f <= 9999 -> 0 <= s_month f <= 99 -> 0 <= s_day f <= 99 ->
  0 <= s_hour f <= 99 -> 0 <= s_minute f <= 99 -> 0 <= s_second f <= 99 ->
  read_stamp sep (render sep f ++ rest) = Some (f, rest).
Proof.
  intros Hy Hm Hd Hh Hn Hs. destruct f as [y m d hh mm ss].
  cbn [s_year s_month s_day s_hour s_minute s_second] in *.
  unfold render. cbn [s_year s_month s_day s_hour s_minute s_second zpad append].
  unfold read_stamp.
  rewrite (four_zpad y Hy), (two_zpad m Hm), (two_zpad d Hd),
    (two_zpad hh Hh), (two_zpad mm Hn), (two_zpad ss Hs).
  rewrite (Ascii.eqb_refl sep).
  reflexivity.
Qed.

Lemma digit_not_dot x : Ascii.eqb (digit (x mod 10)) "." = false.
Proof. apply digit_is_not. reflexivity. Qed.
Lemma digit_not_minus x : Ascii.eqb (digit (x mod 10)) "-" = false.
Proof. apply digit_is_not. reflexivity. Qed.
Lemma digit_not_plus x : Ascii.eqb (digit (x mod 10)) "+" = false.
Proof. apply digit_is_not. reflexivity. Qed.

End Digits.

(** Evaluate the comparisons between two given characters. *)
Ltac literal_comparisons :=
  repeat match goal with
         | |- context [Ascii.eqb ?a ?b] =>
             let v := eval vm_compute in (Ascii.eqb a b) in
             match v with
             | true => change (Ascii.eqb a b) with true
             | false => change (Ascii.eqb a b) with false
             end
         end.

(** Decide the tests in which no variable occurs. *)
Ltac closed_tests :=
  repeat match goal with
         | |- context [if ?c then _ else _] =>
             lazymatch c with
             | true => fail
             | false => fail
             | _ => idtac
             end;
             let v := eval vm_compute in c in
             match v with
             | true => change c with true
             | false => change c with false
             end; cbv iota
         end.

Ltac read_chars :=
  repeat first
    [ rewrite digit_val_digit
    | rewrite digit_not_dot
    | rewrite digit_not_minus
    | rewrite digit_not_plus
    | progress literal_comparisons
    | progress cbv beta zeta delta [fromisoformat slice parse_isoformat_date parse_int
                                    char_at is_char parse_isoformat_time tz_pos
                                    parse_hh_mm_ss_ff]
    | progress cbn [before_dot append fromisoformat slice substring drop
                    parse_isoformat_date parse_int digits_acc char_at String.get
                    is_char parse_isoformat_time tz_pos find parse_hh_mm_ss_ff
                    parse_fields String.length Nat.ltb Nat.leb Nat.sub Nat.eqb
                    negb andb orb nth zpad] ].

Section Parsing.

Lemma before_dot_render f rest :
  match rest with EmptyString => true | String c _ => Ascii.eqb c "." end = true ->
  before_dot (render "T" f ++ rest) = render "T" f.
Proof.
  intro H. unfold render. read_chars.
  destruct rest as [|c rest]; [reflexivity|].
  cbn [before_dot]. rewrite H. reflexivity.
Qed.

Lemma fromisoformat_render f :
  stamp_ok f = true ->
  0 <= s_hour f -> 0 <= s_minute f -> 0 <= s_second f ->
  fromisoformat (render "T" f ++ "+00:00")
  = Ok (Datetime (s_year f) (s_month f) (s_day f)
                 (s_hour f) (s_minute f) (s_second f) 0 (Some (Timezone 0))).
Proof.
  intros Hok Hh Hn Hs. destruct f as [y m d hh mm ss].
  unfold stamp_ok in Hok.
  cbn [s_year s_month s_day s_hour s_minute s_second] in *.
  rewrite !andb_true_iff in Hok.
  destruct Hok as [[[[[[[[Hy1 Hy2] Hm1] Hm2] Hd1] Hd2] Hh2] Hn2] Hs2].
  unfold render. cbn [s_year s_month s_day s_hour s_minute s_second].
  read_chars.
  change (digit_val "0") with (Some 0).
  cbv beta iota.
  closed_tests.
  apply Z.leb_le in Hy1, Hy2, Hm1, Hm2, Hd1, Hh2, Hn2, Hs2.
  assert (Hd99 : d <= 99).
  { apply Z.leb_le in Hd2. unfold days_in_month in Hd2.
    destruct ((m =? 2) && is_leap y); [lia|].
    destruct (month_cases m ltac:(lia)) as [E|[E|[E|[E|[E|[E|[E|[E|[E|[E|[E|E]]]]]]]]]]];
      subst m; table_lookups; lia. }
  replace ((((0 * 10 + (y / 10 / 10 / 10) mod 10) * 10 + (y / 10 / 10) mod 10) *
            10 + (y / 10) mod 10) * 10 + y mod 10) with y
    by (Z.div_mod_to_equations; lia).
  replace ((0 * 10 + (m / 10) mod 10) * 10 + m mod 10) with m
    by (Z.div_mod_to_equations; lia).
  replace ((0 * 10 + (d / 10) mod 10) * 10 + d mod 10) with d
    by (Z.div_mod_to_equations; lia).
  replace ((0 * 10 + (hh / 10) mod 10) * 10 + hh mod 10) with hh
    by (Z.div_mod_to_equations; lia).
  replace ((0 * 10 + (mm / 10) mod 10) * 10 + mm mod 10) with mm
    by (Z.div_mod_to_equations; lia).
  replace ((0 * 10 + (ss / 10) mod 10) * 10 + ss mod 10) with ss
    by (Z.div_mod_to_equations; lia).
  unfold new_datetime, MINYEAR, MAXYEAR.
  apply Z.leb_le in Hy1, Hy2, Hm1, Hm2, Hd1, Hh2, Hn2, Hs2, Hh, Hn, Hs.
  rewrite Hy1, Hy2, Hm1, Hm2, Hd1, Hd2, Hh2, Hn2, Hs2, Hh, Hn, Hs.
  reflexivity.
Qed.

End Parsing.

(** ** The time localizer *)

Section Localizer.
Context {rt : Runtime}.

Lemma append_empty s : s ++ "" = s.
Proof. induction s as [|c s IH]; [reflexivity|]. cbn [append]. rewrite IH. reflexivity. Qed.

Lemma append_rebracket (a b c : string) : (a ++ b) ++ c = a ++ (b ++ c).
Proof. induction a as [|x a IH]; [reflexivity|]. cbn [append]. rewrite IH. reflexivity. Qed.

Lemma log2_at_least (b y : Z) : b <= y -> (Z.to_nat (Z.log2 b) <= Z.to_nat (Z.log2 y))%nat.
Proof. intro H. apply Z2Nat.inj_le; try apply Z.log2_nonneg. apply Z.log2_le_mono. exact H. Qed.

(** A year of four digits is printed as if padded. *)
Lemma unpadded_four y : 1000 <= y <= 9999 -> unpadded y = zpad 4 y.
Proof.
  intro H. unfold unpadded.
  pose proof (log2_at_least 1000 y ltac:(lia)) as Hk.
  change (Z.to_nat (Z.log2 1000)) with 9%nat in Hk.
  destruct (Z.to_nat (Z.log2 y)) as [|[|[|k]]]; try lia.
  cbn [unpadded_digits zpad].
  replace (y <? 10) with false by (symmetry; apply Z.ltb_ge; lia).
  replace (y / 10 <? 10) with false
    by (symmetry; apply Z.ltb_ge; Z.div_mod_to_equations; lia).
  replace (y / 10 / 10 <? 10) with false
    by (symmetry; apply Z.ltb_ge; Z.div_mod_to_equations; lia).
  replace (y / 10 / 10 / 10 <? 10) with true
    by (symmetry; apply Z.ltb_lt; Z.div_mod_to_equations; lia).
  reflexivity.
Qed.

(** An earlier year is printed on the one, two or three digits it has. *)
Lemma unpadded_short y :
  0 <= y <= 999 ->
  (y <= 9 /\ unpadded y = zpad 1 y)
  \/ (10 <= y <= 99 /\ unpadded y = zpad 2 y)
  \/ (100 <= y /\ unpadded y = zpad 3 y).
Proof.
  intro H. unfold unpadded.
  destruct (Z_le_dec y 9) as [H1|H1]; [left; split; [exact H1|] |
    destruct (Z_le_dec y 99) as [H2|H2]; [right; left; split; [lia|] |
      right; right; split; [lia|]]].
  - cbn [unpadded_digits zpad].
    replace (y <? 10) with true by (symmetry; apply Z.ltb_lt; lia). reflexivity.
  - pose proof (log2_at_least 10 y ltac:(lia)) as Hk.
    change (Z.to_nat (Z.log2 10)) with 3%nat in Hk.
    destruct (Z.to_nat (Z.log2 y)) as [|k]; try lia.
    cbn [unpadded_digits zpad].
    replace (y <? 10) with false by (symmetry; apply Z.ltb_ge; lia).
    replace (y / 10 <? 10) with true
      by (symmetry; apply Z.ltb_lt; Z.div_mod_to_equations; lia).
    reflexivity.
  - pose proof (log2_at_least 100 y ltac:(lia)) as Hk.
    change (Z.to_nat (Z.log2 100)) with 6%nat in Hk.
    destruct (Z.to_nat (Z.log2 y)) as [|[|k]]; try lia.
    cbn [unpadded_digits zpad].
    replace (y <? 10) with false by (symmetry; apply Z.ltb_ge; lia).
    replace (y / 10 <? 10) with false
      by (symmetry; apply Z.ltb_ge; Z.div_mod_to_equations; lia).
    replace (y / 10 / 10 <? 10) with true
      by (symmetry; apply Z.ltb_lt; Z.div_mod_to_equations; lia).
    reflexivity.
Qed.

Lemma strftime_text dt :
  strftime dt "%Y-%m-%d %H:%M:%S %Z"
  = printed (stamp_of dt) ++ String " " (tzname dt).
Proof.
  unfold printed, stamp_of. cbn [s_year s_month s_day s_hour s_minute s_second].
  cbn [strftime]. literal_comparisons. cbv iota.
  rewrite append_rebracket. cbn [zpad append]. rewrite append_empty. reflexivity.
Qed.

(** With a year of four digits the printed text is the rendering. *)
Lemma printed_render f : 1000 <= s_year f <= 9999 -> printed f = render " " f.
Proof. intro H. unfold printed, render. rewrite (unpadded_four _ H). reflexivity. Qed.

(** With an earlier year the printed text does not read as a stamp. *)
Lemma printed_unreadable f rest :
  0 <= s_year f <= 999 -> read_stamp " " (printed f ++ rest) = None.
Proof.
  intro H. unfold printed. rewrite append_rebracket.
  destruct (unpadded_short _ H) as [[_ ->]|[[_ ->]|[_ ->]]];
    cbn [zpad append]; unfold read_stamp.
  - destruct rest as [|r0 [|r1 [|r2 rest]]]; try reflexivity;
      literal_comparisons; reflexivity.
  - destruct rest as [|r0 [|r1 rest]]; try reflexivity;
      rewrite digit_not_minus; reflexivity.
  - destruct rest as [|r0 rest]; try reflexivity;
      rewrite digit_not_minus; reflexivity.
Qed.

Lemma bisect_right_le times x : (bisect_right times x <= List.length times)%nat.
Proof.
  induction times as [|t0 rest IH]; [apply Nat.le_refl|].
  cbn [bisect_right List.length]. destruct (to_us t0 <=? to_us x); lia.
Qed.

Lemma bisect_right_instant times x y :
  to_us x = to_us y -> bisect_right times x = bisect_right times y.
Proof.
  intro H. induction times as [|t0 rest IH]; [reflexivity|].
  cbn [bisect_right]. rewrite H, IH. reflexivity.
Qed.

(** A well-formed zone always has an entry for the instant asked about: the
    one in force then, whatever zone the reading asked about carries. *)
Lemma fromutc_entry z dt utc :
  zone_ok z = true ->
  to_us utc = to_us dt ->
  exists off dst name,
    in_force z utc = Some (off, dst, name)
    /\ In (off, dst, name) (transition_info z)
    /\ fromutc z dt
       = (let* local := add (replace_tzinfo dt None) off in
          Ok (replace_tzinfo local (Some (PytzInfo off dst name))))%res.
Proof.
  unfold zone_ok. rewrite !andb_true_iff. intros [[Hne Hlen] _] Hsame.
  apply Nat.leb_le in Hne, Hlen.
  unfold fromutc, in_force.
  rewrite (bisect_right_instant (utc_transition_times z) utc (replace_tzinfo dt None) Hsame).
  pose proof (bisect_right_le (utc_transition_times z) (replace_tzinfo dt None)) as Hb.
  set (idx := Nat.max 0 (bisect_right (utc_transition_times z) (replace_tzinfo dt None) - 1)).
  assert (Hidx : (idx < List.length (transition_info z))%nat) by (unfold idx; lia).
  destruct (nth_error (transition_info z) idx) as [[[off dst] name]|] eqn:E.
  - exists off, dst, name.
    split; [reflexivity|]. split; [eapply nth_error_In; exact E | reflexivity].
  - apply nth_error_None in E. lia.
Qed.

Lemma zone_entry z off dst name :
  zone_ok z = true ->
  In (off, dst, name) (transition_info z) ->
  - us_per_day < off < us_per_day
  /\ off mod us_per_second = 0
  /\ abbreviation_offset (transition_info z) name = Some off.
Proof.
  unfold zone_ok. rewrite !andb_true_iff. intros [_ Hall] Hin.
  rewrite forallb_forall in Hall. specialize (Hall _ Hin).
  unfold entry_ok in Hall. rewrite !andb_true_iff in Hall.
  destruct Hall as [[[H1 H2] H3] H4].
  destruct (abbreviation_offset (transition_info z) name) as [off'|]; [|discriminate].
  apply Z.eqb_eq in H4. subst off'.
  repeat split; lia.
Qed.

Lemma add_error dt delta e :
  add dt delta = Err e -> e = OverflowError "date value out of range".
Proof.
  unfold add.
  destruct ((0 <? (to_us dt + delta) / us_per_day)
            && ((to_us dt + delta) / us_per_day <=? MAXORDINAL)).
  - destruct (ord2ymd _) as [[y m] d]. discriminate.
  - intro H. injection H as <-. reflexivity.
Qed.

(** On a valid timestamp the localizer gets as far as the conversion. *)
Lemma convert_valid s f :
  truncated_iso s = Some f ->
  convert_to_spain (JStr s)
  = (let* local := astimezone local_utcoffset (utc_reading f) europe_madrid in
     Ok (strftime local "%Y-%m-%d %H:%M:%S %Z"))%res
  /\ stamp_ok f = true
  /\ 0 <= s_hour f /\ 0 <= s_minute f /\ 0 <= s_second f.
Proof.
  unfold truncated_iso. destruct (read_stamp "T" s) as [[f' rest]|] eqn:E; [|discriminate].
  destruct (stamp_ok f' && _) eqn:Hok; [|discriminate].
  intro H. injection H as ->.
  apply andb_true_iff in Hok. destruct Hok as [Hok Hrest].
  destruct (read_stamp_render _ _ _ _ E) as (-> & Hy & Hm & Hd & Hh & Hn & Hs).
  split; [|repeat split; [exact Hok | lia | lia | lia]].
  unfold convert_to_spain, pytz_timezone.
  change (String.eqb "Europe/Madrid" "Europe/Madrid") with true.
  cbn [rbind split_dot_0].
  rewrite (before_dot_render _ _ Hrest).
  rewrite (fromisoformat_render f Hok) by lia.
  reflexivity.
Qed.

End Localizer.

Section RoundTrip.
Context {rt : Runtime}.

Lemma days_in_month_le y m : 1 <= m <= 12 -> days_in_month y m <= 31.
Proof.
  intro Hm. unfold days_in_month.
  destruct ((m =? 2) && is_leap y); [lia|].
  destruct (month_cases m Hm) as [E|[E|[E|[E|[E|[E|[E|[E|[E|[E|[E|E]]]]]]]]]]];
    subst m; table_lookups; lia.
Qed.

Lemma stamp_ok_bounds f :
  stamp_ok f = true ->
  1 <= s_year f <= 9999 /\ 1 <= s_month f <= 12
  /\ 1 <= s_day f <= days_in_month (s_year f) (s_month f)
  /\ s_hour f <= 23 /\ s_minute f <= 59 /\ s_second f <= 59.
Proof.
  unfold stamp_ok. rewrite !andb_true_iff.
  intros [[[[[[[[H1 H2] H3] H4] H5] H6] H7] H8] H9].
  repeat split; lia.
Qed.

(** Where a valid UTC reading sits on the time line. *)
Lemma utc_reading_position f :
  stamp_ok f = true -> 0 <= s_hour f -> 0 <= s_minute f -> 0 <= s_second f ->
  exists ord tod,
    to_us (utc_reading f) = ord * us_per_day + tod
    /\ to_us (utc_reading f) = instant f
    /\ 1 <= ord <= MAXORDINAL /\ 0 <= tod < us_per_day
    /\ tod mod us_per_second = 0
    /\ (2 <= s_year f -> 1 < ord)
    /\ (s_year f <= 9998 -> ord < MAXORDINAL).
Proof.
  intros Hok Hh Hn Hs.
  destruct (stamp_ok_bounds f Hok) as (Hy & Hm & Hd & Hh2 & Hn2 & Hs2).
  destruct (ymd2ord_bounds _ _ _ Hy Hm Hd) as (Hord & Hlo & Hhi).
  exists (ymd2ord (s_year f) (s_month f) (s_day f)),
         ((s_hour f * 3600 + s_minute f * 60 + s_second f) * us_per_second).
  unfold instant, utc_reading, to_us.
  cbn [year month day hour minute second microsecond].
  repeat apply conj; try lia; try apply Z_mod_mult;
    unfold us_per_day, us_per_second; lia.
Qed.

Lemma astimezone_error dt z e :
  astimezone local_utcoffset dt z = Err e ->
  e = OverflowError "date value out of range" \/ e = IndexError TList.
Proof.
  unfold astimezone.
  destruct (add dt _) as [utc|e0] eqn:E1; cbn [rbind].
  - unfold fromutc. destruct (nth_error _ _) as [[[off dst] name]|].
    + destruct (add (replace_tzinfo utc None) off) as [local|e1] eqn:E2; cbn [rbind].
      * discriminate.
      * intro H. injection H as <-. left. exact (add_error _ _ _ E2).
    + intro H. injection H as <-. right. reflexivity.
  - intro H. injection H as <-. left. exact (add_error _ _ _ E1).
Qed.

(** What the time localizer makes of a valid timestamp, for a well-formed
    zone table: with the entry in force at the timestamp, either the text of
    the reading later than it by the entry's offset and the entry's
    abbreviation, or, that reading being out of the calendar, an
    [OverflowError]. *)
Lemma localized (s : string) (f : stamp) :
  truncated_iso s = Some f ->
  zone_ok europe_madrid = true ->
  exists off dst name,
    in_force europe_madrid (utc_reading f) = Some (off, dst, name)
    /\ - us_per_day < off < us_per_day
    /\ abbreviation_offset (transition_info europe_madrid) name = Some off
    /\ ((exists g,
           stamp_ok g = true
           /\ (0 <= s_hour g /\ 0 <= s_minute g /\ 0 <= s_second g)
           /\ instant g = instant f + off
           /\ convert_to_spain (JStr s) = Ok (printed g ++ String " " name))
        \/ (~ (us_per_day <= instant f + off < (MAXORDINAL + 1) * us_per_day)
            /\ convert_to_spain (JStr s) = Err (OverflowError "date value out of range"))).
Proof.
  intros Hs Hz.
  destruct (convert_valid s f Hs) as (Hc & Hok & Hh & Hn & Hsec).
  rewrite Hc. clear Hc.
  destruct (utc_reading_position f Hok Hh Hn Hsec)
    as (ord & tod & Hpos & Hinst & Hord & Htod & Htod0 & _ & _).
  unfold astimezone. cbn [tz utc_reading utcoffset]. fold (utc_reading f).
  (* the reading is already in UTC *)
  destruct (add_in_range (utc_reading f) (- 0)) as (utc & Hadd & Hus & _ & Hmicro & _).
  { rewrite Hpos. unfold us_per_day, us_per_second, MAXORDINAL in *. lia. }
  rewrite Hadd. cbn [rbind].
  assert (Hsame : to_us (utc_reading f) = to_us utc) by (rewrite Hus; lia).
  destruct (fromutc_entry europe_madrid utc (utc_reading f) Hz Hsame)
    as (off & dst & name & Hforce & Hin & Hfrom).
  rewrite Hfrom. clear Hfrom.
  destruct (zone_entry _ _ _ _ Hz Hin) as (Hoff & Hoff0 & Habbr).
  exists off, dst, name.
  split; [exact Hforce|]. split; [exact Hoff|]. split; [exact Habbr|].
  assert (Hutc : to_us (replace_tzinfo utc None) = instant f).
  { unfold to_us, replace_tzinfo. cbn [year month day hour minute second microsecond].
    fold (to_us utc). rewrite Hus, Hinst. lia. }
  destruct (Z_le_dec us_per_day (instant f + off)) as [Hge|Hlt];
    [destruct (Z_lt_dec (instant f + off) ((MAXORDINAL + 1) * us_per_day)) as [Hle|Hgt]|].
  - (* the Madrid reading exists *)
    left.
    destruct (add_in_range (replace_tzinfo utc None) off)
      as (local & Hlocal & Hlus & _ & Hlmicro & Hlok & Hlh & Hln & Hls).
    { rewrite Hutc. split; assumption. }
    rewrite Hlocal. cbn [rbind]. exists (stamp_of local).
    split; [exact Hlok|]. split; [repeat apply conj; assumption|].
    split; [|rewrite strftime_text; reflexivity].
    assert (Hm0 : microsecond local = 0).
    { rewrite Hlmicro, Hutc, <- Hinst, Hpos. unfold us_per_day, us_per_second in *.
      Z.div_mod_to_equations. lia. }
    rewrite <- Hutc, <- Hlus.
    unfold instant, stamp_of, to_us.
    cbn [s_year s_month s_day s_hour s_minute s_second
         year month day hour minute second microsecond].
    rewrite Hm0. lia.
  - right. split; [lia|]. rewrite add_out_of_range by (rewrite Hutc; lia). reflexivity.
  - right. split; [lia|]. rewrite add_out_of_range by (rewrite Hutc; lia). reflexivity.
Qed.

(** Given [None] the time localizer returns ['N/A']; and whenever it fails
    on a badly formed timestamp ([ValueError]), what it was given is a
    string that is not a valid truncated-ISO timestamp. *)
Lemma convert_to_spain_absent_or_malformed :
  convert_to_spain JNull = Ok "N/A"
  /\ (forall v what arg,
        convert_to_spain v = Err (ValueError what arg) ->
        exists s, v = JStr s /\ truncated_iso s = None).
Proof.
  split; [reflexivity|].
  intros v what arg H.
  destruct v as [| b | n | lexeme | s | items | fields];
    try discriminate H.
  exists s. split; [reflexivity|].
  destruct (truncated_iso s) as [f|] eqn:E; [|reflexivity].
  destruct (convert_valid s f E) as [Hc _]. rewrite Hc in H.
  destruct (astimezone local_utcoffset (utc_reading f) europe_madrid) as [local|e] eqn:Ea;
    cbn [rbind] in H; [discriminate|].
  injection H as ->.
  destruct (astimezone_error _ _ _ Ea); discriminate.
Qed.

(** C7, as the code has it. Take a valid truncated-ISO UTC timestamp and the
    entry of the zone table in force at it. If the Madrid reading, later
    than the timestamp by the entry's offset, is in the years 1 to 9999, the
    time localizer returns a text; with the reading in the years 1000 to
    9999 that text, read back with the offset its zone abbreviation stands
    for, is the instant of the timestamp without its fraction (an instant
    being that of one reading only, see [instant_injective]); with the
    reading before the year 1000 the text has a year of fewer than four
    digits and does not read back. If the Madrid reading is out of the
    years 1 to 9999, which only a timestamp of year 1 or 9999 can bring
    about, the time localizer raises [OverflowError]. *)
Theorem localizer_round_trip (s : string) (f : stamp) :
  truncated_iso s = Some f ->
  zone_ok europe_madrid = true ->
  exists off dst name,
    in_force europe_madrid (utc_reading f) = Some (off, dst, name)
    /\ ((exists g text,
           stamp_ok g = true
           /\ (0 <= s_hour g /\ 0 <= s_minute g /\ 0 <= s_second g)
           /\ instant g = instant f + off
           /\ convert_to_spain (JStr s) = Ok text
           /\ (1000 <= s_year g -> parse_back europe_madrid text = Some (instant f))
           /\ (s_year g < 1000 -> parse_back europe_madrid text = None))
        \/ (~ (us_per_day <= instant f + off < (MAXORDINAL + 1) * us_per_day)
            /\ convert_to_spain (JStr s) = Err (OverflowError "date value out of range")
            /\ (s_year f = 1 \/ s_year f = 9999))).
Proof.
  intros Hs Hz.
  destruct (localized s f Hs Hz) as (off & dst & name & Hforce & Hoff & Habbr & Hcases).
  exists off, dst, name. split; [exact Hforce|].
  destruct Hcases as [(g & Hg & Htime & Hginst & Hc)|(Hout & Hc)].
  - left. exists g, (printed g ++ String " " name).
    split; [exact Hg|]. split; [exact Htime|]. split; [exact Hginst|]. split; [exact Hc|].
    destruct (stamp_ok_bounds _ Hg) as (Hy & Hm & Hd & Hh2 & Hn2 & Hs2).
    split; intro Hyear; unfold parse_back.
    + rewrite printed_render by lia.
      destruct Htime as (Hgh & Hgn & Hgs).
      pose proof (days_in_month_le (s_year g) _ Hm) as Hd31.
      rewrite read_stamp_of_render by lia.
      change (Ascii.eqb " " " ") with true. rewrite Hg. cbn [andb].
      rewrite Habbr. f_equal. lia.
    + rewrite printed_unreadable by lia. reflexivity.
  - right. split; [exact Hout|]. split; [exact Hc|].
    destruct (convert_valid s f Hs) as (_ & Hok & Hh & Hn & Hsec).
    destruct (utc_reading_position f Hok Hh Hn Hsec)
      as (ord & tod & Hpos & Hinst & Hord & Htod & _ & Hlo & Hhi).
    destruct (stamp_ok_bounds _ Hok) as (Hy & _).
    destruct (Z.eq_dec (s_year f) 1) as [E1|N1]; [left; exact E1|].
    destruct (Z.eq_dec (s_year f) 9999) as [E2|N2]; [right; exact E2|].
    exfalso. apply Hout. specialize (Hlo ltac:(lia)). specialize (Hhi ltac:(lia)).
    rewrite <- Hinst, Hpos. unfold us_per_day, us_per_second, MAXORDINAL in *. lia.
Qed.

End RoundTrip.

(** ** Instants and readings *)

Section Instants.

Lemma days_before_next_year y :
  days_before_year (y + 1) = days_before_year y + 365 + (if is_leap y then 1 else 0).
Proof.
  unfold days_before_year, is_leap. cbv zeta.
  replace (y + 1 - 1) with y by lia.
  destruct (Z.eqb_spec (y mod 4) 0) as [H4|H4];
    destruct (Z.eqb_spec (y mod 100) 0) as [H100|H100];
    destruct (Z.eqb_spec (y mod 400) 0) as [H400|H400];
    cbn [negb andb orb]; Z.div_mod_to_equations; lia.
Qed.

Lemma days_before_year_mono y y' : y <= y' -> days_before_year y <= days_before_year y'.
Proof.
  intro H. unfold days_before_year. cbv zeta. Z.div_mod_to_equations. lia.
Qed.

Lemma days_before_month_next y m :
  1 <= m <= 11 ->
  days_before_month y (m + 1) = days_before_month y m + days_in_month y m.
Proof.
  intro Hm. unfold days_before_month, days_in_month.
  destruct (month_cases m ltac:(lia)) as [E|[E|[E|[E|[E|[E|[E|[E|[E|[E|[E|E]]]]]]]]]]];
    subst m; try lia; destruct (is_leap y); table_lookups;
    cbn [Z.ltb Z.eqb Z.compare Pos.compare Pos.compare_cont andb Pos.eqb Z.add Pos.add Pos.succ];
    lia.
Qed.

Lemma days_before_month_mono y m m' :
  1 <= m -> m <= m' <= 12 -> days_before_month y m <= days_before_month y m'.
Proof.
  intros H1 H2. unfold days_before_month.
  destruct (month_cases m ltac:(lia)) as [E|[E|[E|[E|[E|[E|[E|[E|[E|[E|[E|E]]]]]]]]]]];
    destruct (month_cases m' ltac:(lia)) as [E'|[E'|[E'|[E'|[E'|[E'|[E'|[E'|[E'|[E'|[E'|E']]]]]]]]]]];
    subst m m'; try lia; destruct (is_leap y); table_lookups;
    cbn [Z.ltb Z.eqb Z.compare Pos.compare Pos.compare_cont andb Pos.eqb]; lia.
Qed.

(** Two dates that exist and have the same ordinal are the same date. *)
Lemma ymd2ord_injective y m d y' m' d' :
  1 <= m <= 12 -> 1 <= d <= days_in_month y m ->
  1 <= m' <= 12 -> 1 <= d' <= days_in_month y' m' ->
  ymd2ord y m d = ymd2ord y' m' d' ->
  y = y' /\ m = m' /\ d = d'.
Proof.
  intros Hm Hd Hm' Hd' H. unfold ymd2ord in H.
  pose proof (day_of_year_bounds y m d Hm Hd) as B.
  pose proof (day_of_year_bounds y' m' d' Hm' Hd') as B'.
  assert (Hy : y = y').
  { destruct (Z.lt_trichotomy y y') as [L|[E|L]]; [|exact E|].
    - pose proof (days_before_next_year y).
      pose proof (days_before_year_mono (y + 1) y' ltac:(lia)). lia.
    - pose proof (days_before_next_year y').
      pose proof (days_before_year_mono (y' + 1) y ltac:(lia)). lia. }
  subst y'. split; [reflexivity|].
  assert (Hmm : m = m').
  { destruct (Z.lt_trichotomy m m') as [L|[E|L]]; [|exact E|].
    - pose proof (days_before_month_next y m ltac:(lia)).
      pose proof (days_before_month_mono y (m + 1) m' ltac:(lia) ltac:(lia)). lia.
    - pose proof (days_before_month_next y m' ltac:(lia)).
      pose proof (days_before_month_mono y (m' + 1) m ltac:(lia) ltac:(lia)). lia. }
  subst m'. split; [reflexivity|]. lia.
Qed.

(** An instant is the instant of one reading only. *)
Lemma instant_injective f g :
  stamp_ok f = true -> 0 <= s_hour f -> 0 <= s_minute f -> 0 <= s_second f ->
  stamp_ok g = true -> 0 <= s_hour g -> 0 <= s_minute g -> 0 <= s_second g ->
  instant f = instant g -> f = g.
Proof.
  intros Hf Hfh Hfm Hfs Hg Hgh Hgm Hgs H.
  destruct (stamp_ok_bounds f Hf) as (Hy & Hm & Hd & Hh2 & Hn2 & Hs2).
  destruct (stamp_ok_bounds g Hg) as (Hy' & Hm' & Hd' & Hh2' & Hn2' & Hs2').
  destruct f as [y m d hh mm ss], g as [y' m' d' hh' mm' ss'].
  unfold instant, to_us in H.
  cbn [year month day hour minute second microsecond
       s_year s_month s_day s_hour s_minute s_second] in *.
  assert (Hord : ymd2ord y m d = ymd2ord y' m' d'
                 /\ hh * 3600 + mm * 60 + ss = hh' * 3600 + mm' * 60 + ss').
  { unfold us_per_day, us_per_second in H. lia. }
  destruct Hord as [Hord Htod].
  destruct (ymd2ord_injective _ _ _ _ _ _ Hm Hd Hm' Hd' Hord) as (-> & -> & ->).
  assert (hh = hh' /\ mm = mm' /\ ss = ss') as (-> & -> & ->) by lia.
  reflexivity.
Qed.

End Instants.

(** ** The reporter on a successful payload *)

Section Reporter.
Context {rt : Runtime}.

Lemma comprehension_each {A B} (f : A -> result B) xs ys :
  comprehension f xs = Ok ys -> Forall2 (fun x y => f x = Ok y) xs ys.
Proof.
  revert ys. induction xs as [|x xs IH]; intros ys H.
  - cbn in H. injection H as <-. constructor.
  - cbn [comprehension] in H. destruct (f x) as [y|e] eqn:Ex; [|discriminate].
    cbn [rbind] in H. destruct (comprehension f xs) as [ys'|e]; [|discriminate].
    cbn [rbind] in H. injection H as <-. constructor; [exact Ex | apply IH; reflexivity].
Qed.

(** When every table entry yields its record, the reporter prints one line
    per entry, in the order of the payload. *)
Lemma report_success_lines (tables : list json) (details : list table_detail) (t : trace) :
  comprehension build_detail tables = Ok details ->
  report (success_with tables) t
  = (Returns tt, (t ++ map (fun d => Printed (detail_line d)) details)%list)
  /\ Forall2 (fun table d => build_detail table = Ok d) tables details
  /\ List.length details = List.length tables.
Proof.
  intro H. split; [|split].
  - rewrite report_cases. cbn [success_with getitem lookup String.eqb Ascii.eqb Bool.eqb].
    change (eq_str (JStr "success") "success") with true. cbv iota.
    unfold table_details_of.
    cbn [success_with getitem getitem0 lookup String.eqb Ascii.eqb Bool.eqb rbind iterate].
    rewrite H. reflexivity.
  - apply comprehension_each. exact H.
  - symmetry. eapply Forall2_length. apply comprehension_each. exact H.
Qed.

(** An entry without [lastSuccessfulUpdate] gets the placeholder ['N/A'],
    which the time localizer then tries to parse as a timestamp. *)
Lemma build_detail_without_timestamp (fields : list (string * json)) (name : json) :
  lookup "tableName" fields = Some name ->
  lookup "lastSuccessfulUpdate" fields = None ->
  build_detail (JObj fields) = Err (ValueError "Invalid isoformat string" "N/A+00:00").
Proof.
  intros Hn Ht. unfold build_detail. cbn [getitem dict_get]. rewrite Hn, Ht.
  reflexivity.
Qed.

(** C3, at an input where the code falls short of it. The final payload is
    ['success'] with the one table Orders, whose entry has no
    [lastSuccessfulUpdate]: no line is printed for it, and the run ends with
    the diagnostic for the ['N/A'] that could not be parsed. *)
Theorem missing_timestamp_fails_the_report (fuel : nat) :
  sync_lakehouse (S fuel) never_synced_run []
  = (Returns tt,
     [Request (GET "/v1/workspaces/ws/lakehouses/lh");
      Request (POST "/v1.0/myorg/lhdatamarts/ep-1"
                    (JObj [("commands", JArr [JObj [("$type", JStr "MetadataRefreshCommand")]])]));
      Sleep 1;
      Request (GET "/v1.0/myorg/lhdatamarts/ep-1/batches/b1");
      Log ERROR ("An unexpected error occurred: "
                 ++ str_exn (ValueError "Invalid isoformat string" "N/A+00:00"))]).
Proof. reflexivity. Qed.

(** C5, at the input where the code falls short of it. The table entry
    of Orders has no [lastSuccessfulUpdate], so no timestamp; in its place
    the reporter hands the time localizer the placeholder ['N/A'] (line
    110), and the time localizer, which returns ['N/A'] for [None] alone,
    fails on it with [ValueError], and the entry yields no record. *)
Theorem missing_timestamp_fails_the_localizer :
  dict_get orders_never_synced "lastSuccessfulUpdate" (JStr "N/A") = Ok (JStr "N/A")
  /\ convert_to_spain (JStr "N/A")
     = Err (ValueError "Invalid isoformat string" "N/A+00:00")
  /\ build_detail orders_never_synced
     = Err (ValueError "Invalid isoformat string" "N/A+00:00")
  /\ convert_to_spain JNull = Ok "N/A".
Proof.
  split; [reflexivity|]. split; [reflexivity|]. split; [|reflexivity].
  unfold orders_never_synced. apply (build_detail_without_timestamp _ (JStr "Orders"));
    reflexivity.
Qed.

(** With the timestamp there but null, the line shows ['N/A']. *)
Lemma null_timestamp_is_reported (fuel : nat) :
  sync_lakehouse (S fuel) null_timestamp_run []
  = (Returns tt,
     [Request (GET "/v1/workspaces/ws/lakehouses/lh");
      Request (POST "/v1.0/myorg/lhdatamarts/ep-1"
                    (JObj [("commands", JArr [JObj [("$type", JStr "MetadataRefreshCommand")]])]));
      Sleep 1;
      Request (GET "/v1.0/myorg/lhdatamarts/ep-1/batches/b1");
      Printed "Table: Orders   Last Update: N/A  Table Sync State: Completed  SQL Sync State: Completed"]).
Proof. reflexivity. Qed.

(** A failed job ends in the one diagnostic with the payload. *)
Lemma failing_run_logs_the_payload (fuel : nat) :
  sync_lakehouse (S fuel) failing_run []
  = (Returns tt,
     [Request (GET "/v1/workspaces/ws/lakehouses/lh");
      Request (POST "/v1.0/myorg/lhdatamarts/ep-1"
                    (JObj [("commands", JArr [JObj [("$type", JStr "MetadataRefreshCommand")]])]));
      Sleep 1;
      Request (GET "/v1.0/myorg/lhdatamarts/ep-1/batches/b1");
      Log ERROR ("Sync failed: " ++ repr (status "failure"))]).
Proof. reflexivity. Qed.

End Reporter.

(** ** The scenario of the specification *)

(** C6. The initiator reports (b1, inProgress), the first status read
    ['inProgress'], the second ['success'] with the table Orders last
    updated at 2024-01-01T10:00:00.123: the run prints the one line for
    Orders, its last update shown as 2024-01-01 11:00:00 CET. *)
Theorem orders_scenario
        (repr_of : json -> string) (str_of : exn -> string)
        (local_offset : datetime -> timedelta) (fuel : nat) :
  sync_lakehouse (rt := Build_Runtime repr_of str_of Europe_Madrid local_offset)
                 (S (S fuel)) orders_run []
  = (Returns tt,
     [Request (GET "/v1/workspaces/ws/lakehouses/lh");
      Request (POST "/v1.0/myorg/lhdatamarts/ep-1"
                    (JObj [("commands", JArr [JObj [("$type", JStr "MetadataRefreshCommand")]])]));
      Sleep 1;
      Request (GET "/v1.0/myorg/lhdatamarts/ep-1/batches/b1");
      Sleep 1;
      Request (GET "/v1.0/myorg/lhdatamarts/ep-1/batches/b1");
      Printed "Table: Orders   Last Update: 2024-01-01 11:00:00 CET  Table Sync State: Completed  SQL Sync State: Completed"]).
Proof. vm_compute. reflexivity. Qed.

(** ** The theorems at work on the scripted runs *)

Lemma sync_lakehouse_funnels_faults_witness :
  fault_at (rt := reference_runtime) 3 refused_run [] Resolver (HTTPError 403)
           [Request (GET "/v1/workspaces/ws/lakehouses/lh")]
  /\ exists evs,
       silent evs
       /\ [Request (GET "/v1/workspaces/ws/lakehouses/lh")] = ([] ++ evs)%list
       /\ is_log (diagnostic (rt := reference_runtime) (HTTPError 403)) = true
       /\ sync_lakehouse (rt := reference_runtime) 3 refused_run []
          = (Returns tt,
             ([] ++ evs ++ [diagnostic (rt := reference_runtime) (HTTPError 403)])%list).
Proof.
  split; [reflexivity|].
  apply (proj2 (sync_lakehouse_funnels_faults (rt := reference_runtime) 3 refused_run [])
               Resolver).
  reflexivity.
Defined.

Lemma poller_returns_first_settled_read_witness :
  initiate_sync (rt := reference_runtime) done_at_once_run (JStr "ep-1")
                [Request (GET "/v1/workspaces/ws/lakehouses/lh")]
  = (Returns (JStr "b1", JStr "success"),
     [Request (GET "/v1/workspaces/ws/lakehouses/lh");
      Request (refresh_request (rt := reference_runtime) (JStr "ep-1"))])
  /\ forall fuel, (0 < fuel)%nat ->
       poll_sync_status (rt := reference_runtime) fuel done_at_once_run
                        (JStr "ep-1") (JStr "b1")
                        [Request (GET "/v1/workspaces/ws/lakehouses/lh");
                         Request (refresh_request (rt := reference_runtime) (JStr "ep-1"))]
       = (Returns (success_with [orders]),
          [Request (GET "/v1/workspaces/ws/lakehouses/lh");
           Request (refresh_request (rt := reference_runtime) (JStr "ep-1"));
           Sleep 1;
           Request (GET "/v1.0/myorg/lhdatamarts/ep-1/batches/b1")]).
Proof.
  split; [reflexivity|]. intros fuel Hfuel.
  apply (proj2 (poller_returns_first_settled_read
                  (rt := reference_runtime) done_at_once_run []
                  [Request (GET "/v1/workspaces/ws/lakehouses/lh")]
                  [Request (GET "/v1/workspaces/ws/lakehouses/lh");
                   Request (refresh_request (rt := reference_runtime) (JStr "ep-1"))]
                  (JStr "ep-1") (JStr "b1") (JStr "success")
                  (success_with [orders]) (JStr "success") 0
                  eq_refl eq_refl
                  (fun k Hk => ltac:(lia))
                  eq_refl eq_refl)
               fuel Hfuel).
Defined.

Lemma report_failure_or_unexpected_witness :
  getitem (status "failure") "progressState" = Ok (JStr "failure")
  /\ eq_str (JStr "failure") "success" = false
  /\ report (rt := reference_runtime) (status "failure") []
     = (Returns tt, [Log ERROR "Sync failed: {'progressState': 'failure'}"]).
Proof.
  split; [reflexivity|]. split; [reflexivity|].
  exact (proj1 (report_failure_or_unexpected (rt := reference_runtime)
                  (status "failure") (JStr "failure") [] eq_refl eq_refl)).
Defined.

Lemma placeholder_is_not_a_timestamp :
  convert_to_spain (rt := reference_runtime) (JStr "N/A")
  = Err (ValueError "Invalid isoformat string" "N/A+00:00")
  /\ exists s, JStr "N/A" = JStr s /\ truncated_iso s = None.
Proof.
  split; [reflexivity|].
  exact (proj2 (convert_to_spain_absent_or_malformed (rt := reference_runtime))
               (JStr "N/A") _ _ eq_refl).
Defined.

Lemma localizer_round_trip_witness :
  truncated_iso "2024-01-01T10:00:00.123" = Some (Stamp 2024 1 1 10 0 0)
  /\ zone_ok Europe_Madrid = true
  /\ exists off dst name,
      in_force Europe_Madrid (utc_reading (Stamp 2024 1 1 10 0 0)) = Some (off, dst, name)
      /\ ((exists g text,
             stamp_ok g = true
             /\ (0 <= s_hour g /\ 0 <= s_minute g /\ 0 <= s_second g)
             /\ instant g = instant (Stamp 2024 1 1 10 0 0) + off
             /\ convert_to_spain (rt := reference_runtime) (JStr "2024-01-01T10:00:00.123")
                = Ok text
             /\ (1000 <= s_year g
                 -> parse_back Europe_Madrid text = Some (instant (Stamp 2024 1 1 10 0 0)))
             /\ (s_year g < 1000 -> parse_back Europe_Madrid text = None))
          \/ (~ (us_per_day <= instant (Stamp 2024 1 1 10 0 0) + off
                 < (MAXORDINAL + 1) * us_per_day)
              /\ convert_to_spain (rt := reference_runtime) (JStr "2024-01-01T10:00:00.123")
                 = Err (OverflowError "date value out of range")
              /\ (2024 = 1 \/ 2024 = 9999))).
Proof.
  split; [reflexivity|]. split; [vm_compute; reflexivity|].
  apply (localizer_round_trip (rt := reference_runtime)
                              "2024-01-01T10:00:00.123" (Stamp 2024 1 1 10 0 0)).
  - reflexivity.
  - vm_compute. reflexivity.
Defined.

(** C7 as stated does not hold of a timestamp in the last hour of year
    9999: it is a valid timestamp, and the time localizer has no text for
    it. *)
Lemma localizer_has_no_text_for_the_last_hour :
  ~ (forall s f,
       truncated_iso s = Some f ->
       exists text,
         convert_to_spain (rt := reference_runtime) (JStr s) = Ok text
         /\ parse_back Europe_Madrid text = Some (instant f)).
Proof.
  intro H.
  destruct (H "9999-12-31T23:30:00" (Stamp 9999 12 31 23 30 0) eq_refl)
    as [text [Hc _]].
  vm_compute in Hc. discriminate Hc.
Qed.

Lemma poller_fixed_interval_unbounded_witness :
  poll_sync_status (rt := reference_runtime) 100 endless_run (JStr "ep-1") (JStr "b1") []
  = (Running,
     ([] ++ cycles (status_uri_of (rt := reference_runtime) (JStr "ep-1") (JStr "b1")) 100)%list).
Proof.
  apply (proj1 (poller_fixed_interval_unbounded (rt := reference_runtime)
                  endless_run (JStr "ep-1") (JStr "b1") [])).
  intro k. reflexivity.
Defined.

Lemma missing_endpoint_properties_witness :
  sync_lakehouse (rt := reference_runtime) 3 no_endpoint_run []
  = (Returns tt,
     [Request (GET "/v1/workspaces/ws/lakehouses/lh");
      Log ERROR "An unexpected error occurred: 'sqlEndpointProperties'"]).
Proof.
  exact (missing_endpoint_properties
           (rt := reference_runtime) 3 no_endpoint_run []
           (Response 200 (Some (JObj [("id", JStr "lh"); ("properties", JObj [])])))
           (JObj [("id", JStr "lh"); ("properties", JObj [])]) []
           eq_refl eq_refl eq_refl eq_refl eq_refl).
Defined.

Lemma initial_state_is_discarded_witness :
  same_but_initial_state done_on_first_read_run done_at_once_run
  /\ sync_lakehouse (rt := reference_runtime) 5 done_on_first_read_run []
     = sync_lakehouse (rt := reference_runtime) 5 done_at_once_run [].
Proof.
  assert (H : same_but_initial_state done_on_first_read_run done_at_once_run).
  { split; [reflexivity|]. split; [reflexivity|]. split.
    - intros h uri. reflexivity.
    - intros h uri p. right.
      exists 200, (submitted_b1 "inProgress"), (submitted_b1 "success").
      split; [reflexivity|]. split; [reflexivity|]. split; [reflexivity|].
      split; eexists; reflexivity. }
  split; [exact H|].
  exact (initial_state_is_discarded (rt := reference_runtime) 5 _ _ [] H).
Defined.

(** * Further properties of the program *)

(** ** The resolver and the initiator *)

Section Requests.
Context {rt : Runtime}.

Lemma fetch_not_running self t : fst (fetch_sql_endpoint_id self t) <> Running.
Proof.
  unfold fetch_sql_endpoint_id, bind, send.
  destruct (client self t _) as [resp|e]; [|discriminate].
  unfold raise_for_status.
  destruct ((400 <=? status_code resp) && (status_code resp <? 600)); [discriminate|].
  unfold ret, response_json.
  destruct (body resp) as [info|]; [|discriminate].
  unfold ret. destruct (rbind _ _) as [v|e]; discriminate.
Qed.

Lemma initiate_not_running self id t : fst (initiate_sync self id t) <> Running.
Proof.
  unfold initiate_sync, bind, send.
  destruct (client self t _) as [resp|e]; [|discriminate].
  unfold raise_for_status.
  destruct ((400 <=? status_code resp) && (status_code resp <? 600)); [discriminate|].
  unfold ret, response_json.
  destruct (body resp) as [data|]; [|discriminate].
  unfold ret. destruct (rbind _ _) as [[b s]|e]; discriminate.
Qed.

(** X1. Whether it returns or raises, the resolver has done one thing: the read
    of the lakehouse's metadata. *)
Theorem resolver_makes_one_read (self : LakehouseSyncManager) (t : trace) :
  snd (fetch_sql_endpoint_id self t)
  = (t ++ [Request (GET ("/v1/workspaces/" ++ workspace_id self
                         ++ "/lakehouses/" ++ lakehouse_id self))])%list
  /\ fst (fetch_sql_endpoint_id self t) <> Running.
Proof. split; [apply fetch_trace | apply fetch_not_running]. Qed.

(** X2. An answer that is not a 4xx or 5xx and carries
    [properties.sqlEndpointProperties.id] makes the resolver return that
    value as it is. *)
Theorem resolver_returns_the_endpoint_id
        (self : LakehouseSyncManager) (t : trace) (resp : response)
        (info properties endpoint id : json) :
  client self t (GET (lakehouse_uri self)) = Responds resp ->
  (400 <=? status_code resp) && (status_code resp <? 600) = false ->
  body resp = Some info ->
  getitem info "properties" = Ok properties ->
  getitem properties "sqlEndpointProperties" = Ok endpoint ->
  getitem endpoint "id" = Ok id ->
  fetch_sql_endpoint_id self t
  = (Returns id, (t ++ [Request (GET (lakehouse_uri self))])%list).
Proof.
  intros Hc Hs Hb Hp He Hi.
  unfold fetch_sql_endpoint_id, bind, send. fold (lakehouse_uri self).
  rewrite Hc. unfold raise_for_status. rewrite Hs. unfold ret, response_json.
  rewrite Hb. unfold ret. rewrite Hp. cbn [rbind]. rewrite He. cbn [rbind].
  rewrite Hi. reflexivity.
Qed.

(** X3. A 4xx or 5xx answer to the metadata read is a fault whatever its body
    says, and the run reports it under the generic label. *)
Theorem resolver_refused
        (fuel : nat) (self : LakehouseSyncManager) (t : trace) (resp : response) :
  client self t (GET (lakehouse_uri self)) = Responds resp ->
  400 <= status_code resp < 600 ->
  fetch_sql_endpoint_id self t
  = (Throws (HTTPError (status_code resp)),
     (t ++ [Request (GET (lakehouse_uri self))])%list)
  /\ sync_lakehouse fuel self t
     = (Returns tt,
        (t ++ [Request (GET (lakehouse_uri self));
               Log ERROR ("An unexpected error occurred: "
                          ++ str_exn (HTTPError (status_code resp)))])%list).
Proof.
  intros Hc Hs.
  assert (Hf : fetch_sql_endpoint_id self t
               = (Throws (HTTPError (status_code resp)),
                  (t ++ [Request (GET (lakehouse_uri self))])%list)).
  { unfold fetch_sql_endpoint_id, bind, send. fold (lakehouse_uri self).
    rewrite Hc. unfold raise_for_status.
    replace ((400 <=? status_code resp) && (status_code resp <? 600)) with true
      by (symmetry; apply andb_true_iff; split; [apply Z.leb_le | apply Z.ltb_lt]; lia).
    reflexivity. }
  split; [exact Hf|].
  rewrite sync_lakehouse_cases, sync_steps_cases, Hf, <- app_assoc. reflexivity.
Qed.

(** X4. Whether it returns or raises, the initiator has done one thing: the
    submission of the one refresh command to the endpoint it was given. *)
Theorem initiator_makes_one_submission
        (self : LakehouseSyncManager) (sql_endpoint_id : json) (t : trace) :
  snd (initiate_sync self sql_endpoint_id t)
  = (t ++ [Request
             (POST ("/v1.0/myorg/lhdatamarts/" ++ py_str sql_endpoint_id)
                   (JObj [("commands",
                           JArr [JObj [("$type", JStr "MetadataRefreshCommand")]])]))])%list
  /\ fst (initiate_sync self sql_endpoint_id t) <> Running.
Proof. split; [apply initiate_trace | apply initiate_not_running]. Qed.

(** X5. The initiator returns the batch id and the state the server gave, the
    state being whatever it is. *)
Theorem initiator_returns_what_the_server_reports
        (self : LakehouseSyncManager) (id : json) (t : trace) (resp : response)
        (data batch state : json) :
  client self t (refresh_request id) = Responds resp ->
  (400 <=? status_code resp) && (status_code resp <? 600) = false ->
  body resp = Some data ->
  getitem data "batchId" = Ok batch ->
  getitem data "progressState" = Ok state ->
  initiate_sync self id t
  = (Returns (batch, state), (t ++ [Request (refresh_request id)])%list).
Proof.
  intros Hc Hs Hb Hbatch Hstate.
  unfold initiate_sync, bind, send. fold (refresh_request id).
  rewrite Hc. unfold raise_for_status. rewrite Hs. unfold ret, response_json.
  rewrite Hb. unfold ret. rewrite Hbatch. cbn [rbind]. rewrite Hstate. reflexivity.
Qed.

(** X6. An answer to the submission that lacks [batchId] raises the [KeyError]
    for it, with or without a [progressState]; one that has it and lacks
    [progressState] raises the [KeyError] for that. *)
Theorem initiator_missing_keys
        (self : LakehouseSyncManager) (id : json) (t : trace) (resp : response)
        (fields : list (string * json)) :
  client self t (refresh_request id) = Responds resp ->
  (400 <=? status_code resp) && (status_code resp <? 600) = false ->
  body resp = Some (JObj fields) ->
  (lookup "batchId" fields = None ->
   initiate_sync self id t
   = (Throws (KeyError (JStr "batchId")), (t ++ [Request (refresh_request id)])%list))
  /\ (forall batch,
        lookup "batchId" fields = Some batch ->
        lookup "progressState" fields = None ->
        initiate_sync self id t
        = (Throws (KeyError (JStr "progressState")),
           (t ++ [Request (refresh_request id)])%list)).
Proof.
  intros Hc Hs Hb.
  unfold initiate_sync, bind, send. fold (refresh_request id).
  rewrite Hc. unfold raise_for_status. rewrite Hs. unfold ret, response_json.
  rewrite Hb. unfold ret. cbn [getitem]. split.
  - intros ->. reflexivity.
  - intros batch -> ->. reflexivity.
Qed.

End Requests.

(** ** The poller, whatever the answers *)

Section AnyAnswers.
Context {rt : Runtime}.

Lemma poll_loop_rounds self uri fuel : forall t,
  exists n,
    (n <= fuel)%nat
    /\ snd (poll_loop fuel self uri t) = (t ++ cycles uri n)%list
    /\ (fst (poll_loop fuel self uri t) = Running -> n = fuel)
    /\ (fst (poll_loop fuel self uri t) <> Running -> (1 <= n)%nat).
Proof.
  induction fuel as [|fuel IH]; intro t.
  - exists O. cbn. rewrite app_nil_r. repeat apply conj; try reflexivity; try lia.
    intro H. exfalso. apply H. reflexivity.
  - rewrite poll_loop_step.
    destruct (reported _) as [[payload state]|e].
    + destruct (eq_str state "inProgress").
      * destruct (IH (t ++ cycle uri)%list) as (n & Hn & Ht & Hrun & Hend).
        exists (S n). rewrite Ht. cbn [cycles]. rewrite <- app_assoc.
        repeat apply conj; try reflexivity; try lia.
        intro H. rewrite (Hrun H). reflexivity.
      * exists 1%nat. cbn [fst snd]. repeat apply conj; try reflexivity; try lia.
        discriminate.
    + exists 1%nat. cbn [fst snd]. repeat apply conj; try reflexivity; try lia.
      discriminate.
Qed.

(** X7. Whatever the server answers, all the poller does is a number of rounds,
    each a sleep of one unit and a read of the one status address: as many
    as the budget when it is still running, at least one when it is not. *)
Theorem poller_only_sleeps_and_reads
        (fuel : nat) (self : LakehouseSyncManager) (id batch : json) (t : trace) :
  exists n,
    (n <= fuel)%nat
    /\ snd (poll_sync_status fuel self id batch t)
       = (t ++ cycles ("/v1.0/myorg/lhdatamarts/" ++ py_str id
                       ++ "/batches/" ++ py_str batch) n)%list
    /\ (fst (poll_sync_status fuel self id batch t) = Running -> n = fuel)
    /\ (fst (poll_sync_status fuel self id batch t) <> Running -> (1 <= n)%nat).
Proof. unfold poll_sync_status. apply poll_loop_rounds. Qed.

(** X8. A status read that ends in a fault ends the polling with that fault:
    nothing is slept or read after it. *)
Theorem poller_propagates_first_fault
        (self : LakehouseSyncManager) (id batch : json) (t : trace)
        (n : nat) (e : exn) :
  (forall k, (k < n)%nat ->
             in_progress (status_read self (status_uri_of id batch) t k) = true) ->
  reported (status_read self (status_uri_of id batch) t n) = Err e ->
  forall fuel, (n < fuel)%nat ->
    poll_sync_status fuel self id batch t
    = (Throws e, (t ++ cycles (status_uri_of id batch) (S n))%list).
Proof.
  intros Hbefore Hn fuel Hfuel.
  unfold poll_sync_status. fold (status_uri_of id batch).
  rewrite (poll_loop_stops self _ n fuel t Hbefore); [| | exact Hfuel].
  - rewrite Hn. reflexivity.
  - unfold in_progress. rewrite Hn. reflexivity.
Qed.

End AnyAnswers.

(** ** The reporter, entry by entry *)

Section Entries.
Context {rt : Runtime}.

Lemma comprehension_of_each {A B} (f : A -> result B) xs ys :
  Forall2 (fun x y => f x = Ok y) xs ys -> comprehension f xs = Ok ys.
Proof.
  induction 1 as [|x y xs ys Hx _ IH]; [reflexivity|].
  cbn [comprehension]. rewrite Hx. cbn [rbind]. rewrite IH. reflexivity.
Qed.

Lemma comprehension_first_failure {A B} (f : A -> result B) good ys bad rest e :
  Forall2 (fun x y => f x = Ok y) good ys ->
  f bad = Err e ->
  comprehension f (good ++ bad :: rest) = Err e.
Proof.
  intros Hgood Hbad. induction Hgood as [|x y xs ys' Hx _ IH].
  - cbn [app comprehension]. rewrite Hbad. reflexivity.
  - cbn [app comprehension]. rewrite Hx. cbn [rbind]. rewrite IH. reflexivity.
Qed.

Lemma report_success_with (tables : list json) (t : trace) :
  report (success_with tables) t
  = match comprehension build_detail tables with
    | Ok details =>
        (Returns tt, (t ++ map (fun d => Printed (detail_line d)) details)%list)
    | Err e => (Throws e, t)
    end.
Proof.
  rewrite report_cases. reflexivity.
Qed.

(** X9. A successful payload whose table list turns out empty is reported by
    nothing at all: no line, no diagnostic. *)
Theorem report_of_no_table (status_data state info first detail tables : json) (t : trace) :
  getitem status_data "progressState" = Ok state ->
  eq_str state "success" = true ->
  getitem status_data "operationInformation" = Ok info ->
  getitem0 info = Ok first ->
  getitem first "progressDetail" = Ok detail ->
  getitem detail "tablesSyncStatus" = Ok tables ->
  iterate tables = Ok [] ->
  report status_data t = (Returns tt, t).
Proof.
  intros Hs Hsucc Hi Hf Hd Ht Hnone.
  rewrite report_cases, Hs, Hsucc. unfold table_details_of.
  rewrite Hi. cbn [rbind]. rewrite Hf. cbn [rbind]. rewrite Hd. cbn [rbind].
  rewrite Ht. cbn [rbind]. rewrite Hnone. cbn [rbind comprehension map].
  rewrite app_nil_r. reflexivity.
Qed.

(** X10. One entry that yields no record spoils the report: the reporter raises
    the fault of the first such entry and prints no line, not even for the
    entries before it. *)
Theorem report_is_all_or_nothing
        (good rest : list json) (bad : json) (details : list table_detail)
        (e : exn) (t : trace) :
  Forall2 (fun table d => build_detail table = Ok d) good details ->
  build_detail bad = Err e ->
  report (success_with (good ++ bad :: rest)) t = (Throws e, t).
Proof.
  intros Hgood Hbad. rewrite report_success_with.
  rewrite (comprehension_first_failure _ _ _ _ _ _ Hgood Hbad). reflexivity.
Qed.

(** X11. Of the operations a successful payload lists, the first alone is read. *)
Theorem report_reads_the_first_operation (first : json) (others : list json) (t : trace) :
  report (success_payload (first :: others)) t = report (success_payload [first]) t.
Proof. rewrite !report_cases. reflexivity. Qed.

(** X12. When every entry yields its record, the reporter prints the lines of
    the records, one per entry and in the order of the payload, and logs
    nothing. *)
Theorem report_prints_one_line_per_table
        (tables : list json) (details : list table_detail) (t : trace) :
  Forall2 (fun table d => build_detail table = Ok d) tables details ->
  report (success_with tables) t
  = (Returns tt, (t ++ map (fun d => Printed (detail_line d)) details)%list)
  /\ List.length (map (fun d => Printed (detail_line d)) details) = List.length tables.
Proof.
  intro H. rewrite report_success_with, (comprehension_of_each _ _ _ H).
  split; [reflexivity|]. rewrite length_map. symmetry. eapply Forall2_length. exact H.
Qed.

End Entries.

(** ** The time localizer on well-formed timestamps *)

Section Texts.
Context {rt : Runtime}.

Lemma before_dot_cut s tail : before_dot (before_dot s ++ String "." tail) = before_dot s.
Proof.
  induction s as [|c s IH]; [reflexivity|].
  cbn [before_dot]. destruct (Ascii.eqb c ".") eqn:E.
  - reflexivity.
  - cbn [append before_dot]. rewrite E, IH. reflexivity.
Qed.

(** X13. What follows the first full stop of a timestamp is of no consequence:
    any text in its place gives the same result. *)
Theorem convert_to_spain_ignores_the_fraction (s tail : string) :
  convert_to_spain (JStr (before_dot s ++ String "." tail)) = convert_to_spain (JStr s).
Proof.
  unfold convert_to_spain. cbn [split_dot_0]. rewrite before_dot_cut. reflexivity.
Qed.


End Texts.

(** ** Whole runs *)

Section WholeRuns.
Context {rt : Runtime}.

Lemma diagnostic_is_a_log e : exists lv msg, diagnostic e = Log lv msg.
Proof. destruct e; eexists; eexists; reflexivity. Qed.

Lemma sync_lakehouse_events (fuel : nat) (self : LakehouseSyncManager) (t : trace) :
  exists middle ending,
    snd (sync_lakehouse fuel self t)
    = (t ++ Request (GET (lakehouse_uri self)) :: middle ++ ending)%list
    /\ (middle = []
        \/ exists id batch n,
             (n <= fuel)%nat
             /\ middle = Request (refresh_request id)
                         :: cycles (status_uri_of id batch) n)
    /\ (ending = []
        \/ (exists lv msg, ending = [Log lv msg])
        \/ (exists details, ending = map (fun d => Printed (detail_line d)) details))
    /\ (forall e, fst (sync_lakehouse fuel self t) <> Throws e).
Proof.
  rewrite sync_lakehouse_cases, sync_steps_cases.
  destruct (fetch_sql_endpoint_id self t) as [[id|e|] t1] eqn:Hf;
    pose proof (fetch_returned _ _ _ _ Hf) as ->.
  - destruct (initiate_sync self id _) as [[[batch state]|e|] t2] eqn:Hi;
      pose proof (initiate_returned _ _ _ _ _ Hi) as ->.
    + unfold poll_sync_status. fold (status_uri_of id batch).
      destruct (poll_loop_rounds self (status_uri_of id batch) fuel
                  ((t ++ [Request (GET (lakehouse_uri self))])
                     ++ [Request (refresh_request id)])%list)
        as (n & Hn & Ht & _ & _).
      destruct (poll_loop fuel self _ _) as [[status_data|e|] t3]; cbn [snd] in Ht; subst t3.
      * rewrite report_cases.
        destruct (getitem status_data "progressState") as [st|e].
        -- destruct (eq_str st "success").
           ++ destruct (table_details_of status_data) as [details|e].
              ** exists (Request (refresh_request id) :: cycles (status_uri_of id batch) n),
                   (map (fun d => Printed (detail_line d)) details).
                 cbn [fst snd]. repeat apply conj.
                 --- rewrite <- !app_assoc. reflexivity.
                 --- right. exists id, batch, n. split; [exact Hn | reflexivity].
                 --- right. right. exists details. reflexivity.
                 --- discriminate.
              ** destruct (diagnostic_is_a_log e) as (lv & msg & Hd).
                 exists (Request (refresh_request id) :: cycles (status_uri_of id batch) n),
                   [Log lv msg].
                 cbn [fst snd]. rewrite Hd. repeat apply conj.
                 --- rewrite <- !app_assoc. reflexivity.
                 --- right. exists id, batch, n. split; [exact Hn | reflexivity].
                 --- right. left. eexists. eexists. reflexivity.
                 --- discriminate.
           ++ exists (Request (refresh_request id) :: cycles (status_uri_of id batch) n).
              destruct (eq_str st "failure"); eexists; cbn [fst snd]; repeat apply conj;
                try (rewrite <- !app_assoc; reflexivity);
                try (right; exists id, batch, n; split; [exact Hn | reflexivity]);
                try (right; left; eexists; eexists; reflexivity);
                discriminate.
        -- destruct (diagnostic_is_a_log e) as (lv & msg & Hd).
           exists (Request (refresh_request id) :: cycles (status_uri_of id batch) n),
             [Log lv msg].
           cbn [fst snd]. rewrite Hd. repeat apply conj.
           ++ rewrite <- !app_assoc. reflexivity.
           ++ right. exists id, batch, n. split; [exact Hn | reflexivity].
           ++ right. left. eexists. eexists. reflexivity.
           ++ discriminate.
      * destruct (diagnostic_is_a_log e) as (lv & msg & Hd).
        exists (Request (refresh_request id) :: cycles (status_uri_of id batch) n),
          [Log lv msg].
        cbn [fst snd]. rewrite Hd. repeat apply conj.
        -- rewrite <- !app_assoc. reflexivity.
        -- right. exists id, batch, n. split; [exact Hn | reflexivity].
        -- right. left. eexists. eexists. reflexivity.
        -- discriminate.
      * exists (Request (refresh_request id) :: cycles (status_uri_of id batch) n), [].
        cbn [fst snd]. repeat apply conj.
        -- rewrite app_nil_r, <- !app_assoc. reflexivity.
        -- right. exists id, batch, n. split; [exact Hn | reflexivity].
        -- left. reflexivity.
        -- discriminate.
    + destruct (diagnostic_is_a_log e) as (lv & msg & Hd).
      exists (Request (refresh_request id) :: cycles (status_uri_of id id) 0), [Log lv msg].
      cbn [fst snd]. rewrite Hd. repeat apply conj.
      * rewrite <- !app_assoc. reflexivity.
      * right. exists id, id, O. split; [lia | reflexivity].
      * right. left. eexists. eexists. reflexivity.
      * discriminate.
    + exfalso. apply (initiate_not_running self id
                        (t ++ [Request (GET (lakehouse_uri self))])%list).
      rewrite Hi. reflexivity.
  - destruct (diagnostic_is_a_log e) as (lv & msg & Hd).
    exists [], [Log lv msg]. cbn [fst snd]. rewrite Hd. repeat apply conj.
    + rewrite <- !app_assoc. reflexivity.
    + left. reflexivity.
    + right. left. eexists. eexists. reflexivity.
    + discriminate.
  - exfalso. apply (fetch_not_running self t). rewrite Hf. reflexivity.
Qed.

(** X15. The events of any run, in order: the metadata read; then, if it came to
    that, the one submission followed by rounds of the poller on one status
    address; and last either nothing, or one diagnostic, or table lines only.
    No fault leaves the run. *)
Theorem run_events (fuel : nat) (self : LakehouseSyncManager) (t : trace) :
  exists middle ending,
    snd (sync_lakehouse fuel self t)
    = (t ++ Request (GET (lakehouse_uri self)) :: middle ++ ending)%list
    /\ (middle = []
        \/ exists id batch n,
             (n <= fuel)%nat
             /\ middle = Request (refresh_request id)
                         :: cycles (status_uri_of id batch) n)
    /\ (ending = []
        \/ (exists lv msg, ending = [Log lv msg])
        \/ (exists details, ending = map (fun d => Printed (detail_line d)) details))
    /\ (forall e, fst (sync_lakehouse fuel self t) <> Throws e).
Proof. apply sync_lakehouse_events. Qed.

Lemma run_to_the_report (fuel : nat) (self : LakehouseSyncManager) (t t1 t2 : trace)
      (id batch initial payload state : json) (n : nat) :
  fetch_sql_endpoint_id self t = (Returns id, t1) ->
  initiate_sync self id t1 = (Returns (batch, initial), t2) ->
  (forall k, (k < n)%nat ->
             in_progress (status_read self (status_uri_of id batch) t2 k) = true) ->
  reported (status_read self (status_uri_of id batch) t2 n) = Ok (payload, state) ->
  eq_str state "inProgress" = false ->
  (n < fuel)%nat ->
  sync_steps fuel self t
  = report payload (t2 ++ cycles (status_uri_of id batch) (S n))%list
  /\ getitem payload "progressState" = Ok state.
Proof.
  intros Hf Hi Hbefore Hn Hstate Hfuel. split.
  - rewrite sync_steps_cases, Hf, Hi.
    unfold poll_sync_status. fold (status_uri_of id batch).
    rewrite (poll_loop_stops self _ n fuel t2 Hbefore); [| | exact Hfuel].
    + rewrite Hn. reflexivity.
    + unfold in_progress. rewrite Hn. exact Hstate.
  - unfold reported in Hn.
    destruct (status_read self (status_uri_of id batch) t2 n) as [resp|e]; [|discriminate].
    destruct ((400 <=? status_code resp) && (status_code resp <? 600)); [discriminate|].
    destruct (body resp) as [p|]; [|discriminate].
    destruct (getitem p "progressState") as [st|e] eqn:E; [|discriminate].
    injection Hn as -> ->. exact E.
Qed.

(** X16. A job that settles in a state other than ['success'] ends the run, given
    budget enough, with the rounds of polling followed by one diagnostic:
    the payload at [ERROR] for ['failure'], the state at [WARNING] for any
    other. *)
Theorem run_of_a_job_that_did_not_succeed
        (fuel : nat) (self : LakehouseSyncManager) (t t1 t2 : trace)
        (id batch initial payload state : json) (n : nat) :
  fetch_sql_endpoint_id self t = (Returns id, t1) ->
  initiate_sync self id t1 = (Returns (batch, initial), t2) ->
  (forall k, (k < n)%nat ->
             in_progress (status_read self (status_uri_of id batch) t2 k) = true) ->
  reported (status_read self (status_uri_of id batch) t2 n) = Ok (payload, state) ->
  eq_str state "inProgress" = false ->
  eq_str state "success" = false ->
  (n < fuel)%nat ->
  sync_lakehouse fuel self t
  = (Returns tt,
     (t2 ++ cycles (status_uri_of id batch) (S n)
         ++ [if eq_str state "failure"
             then Log ERROR ("Sync failed: " ++ py_str payload)
             else Log WARNING ("Unexpected state: " ++ py_str state)])%list).
Proof.
  intros Hf Hi Hbefore Hn Hstate Hnot Hfuel.
  destruct (run_to_the_report fuel self t t1 t2 id batch initial payload state n
              Hf Hi Hbefore Hn Hstate Hfuel) as [Hsteps Hget].
  rewrite sync_lakehouse_cases, Hsteps, report_cases, Hget, Hnot.
  destruct (eq_str state "failure"); rewrite <- app_assoc; reflexivity.
Qed.

(** X17. A job that settles in ['success'] ends the run, given budget enough,
    with the rounds of polling followed by the lines of its tables, or,
    when the records cannot be built, by the diagnostic for the fault and
    no line. *)
Theorem run_of_a_job_that_succeeded
        (fuel : nat) (self : LakehouseSyncManager) (t t1 t2 : trace)
        (id batch initial payload state : json) (n : nat) :
  fetch_sql_endpoint_id self t = (Returns id, t1) ->
  initiate_sync self id t1 = (Returns (batch, initial), t2) ->
  (forall k, (k < n)%nat ->
             in_progress (status_read self (status_uri_of id batch) t2 k) = true) ->
  reported (status_read self (status_uri_of id batch) t2 n) = Ok (payload, state) ->
  eq_str state "success" = true ->
  (n < fuel)%nat ->
  sync_lakehouse fuel self t
  = (Returns tt,
     (t2 ++ cycles (status_uri_of id batch) (S n)
         ++ match table_details_of payload with
            | Ok details => map (fun d => Printed (detail_line d)) details
            | Err e => [diagnostic e]
            end)%list).
Proof.
  intros Hf Hi Hbefore Hn Hsucc Hfuel.
  assert (Hstate : eq_str state "inProgress" = false).
  { destruct state as [| | | | s | |]; try reflexivity. cbn [eq_str] in *.
    apply String.eqb_eq in Hsucc. subst s. reflexivity. }
  destruct (run_to_the_report fuel self t t1 t2 id batch initial payload state n
              Hf Hi Hbefore Hn Hstate Hfuel) as [Hsteps Hget].
  rewrite sync_lakehouse_cases, Hsteps, report_cases, Hget, Hsucc.
  destruct (table_details_of payload) as [details|e]; rewrite <- app_assoc; reflexivity.
Qed.

(** X18. [run_sync] builds the manager outside any [try]: a fault of the client's
    constructor leaves [run_sync] as it is, unlogged; once the client
    exists no fault leaves, and the first thing done is the metadata read
    for the two identifiers written in the source. *)
Theorem run_sync_guards_the_run_only (fuel : nat) (t : trace) :
  (forall e, run_sync fuel (Err e) t = (Throws e, t))
  /\ (forall c,
        (forall e, fst (run_sync fuel (Ok c) t) <> Throws e)
        /\ exists rest,
             snd (run_sync fuel (Ok c) t)
             = (t ++ Request (GET ("/v1/workspaces/XXXXXXXXXXXXXXXXXXXXXXXXXXXXXXXXXXXX"
                                   ++ "/lakehouses/XXXXXXXXXXXXXXXXXXXXXXXXXXXXXXXXXXXX"))
                  :: rest)%list).
Proof.
  split; [reflexivity|]. intro c.
  destruct (sync_lakehouse_events fuel
              (Manager "XXXXXXXXXXXXXXXXXXXXXXXXXXXXXXXXXXXX"
                       "XXXXXXXXXXXXXXXXXXXXXXXXXXXXXXXXXXXX" c) t)
    as (middle & ending & Ht & _ & _ & Hno).
  split; [exact Hno|].
  exists (middle ++ ending)%list. exact Ht.
Qed.

End WholeRuns.

(** ** The further properties at work on the scripted runs *)

Lemma resolver_returns_the_endpoint_id_witness :
  fetch_sql_endpoint_id done_at_once_run []
  = (Returns (JStr "ep-1"), [Request (GET "/v1/workspaces/ws/lakehouses/lh")]).
Proof.
  exact (resolver_returns_the_endpoint_id
           done_at_once_run []
           (Response 200 (Some metadata_ep1)) metadata_ep1
           (JObj [("sqlEndpointProperties", JObj [("id", JStr "ep-1")])])
           (JObj [("id", JStr "ep-1")]) (JStr "ep-1")
           eq_refl eq_refl eq_refl eq_refl eq_refl eq_refl).
Defined.

Lemma resolver_refused_witness :
  sync_lakehouse (rt := reference_runtime) 3 refused_with_body_run []
  = (Returns tt,
     [Request (GET "/v1/workspaces/ws/lakehouses/lh");
      Log ERROR "An unexpected error occurred: 404 Error"]).
Proof.
  apply (proj2 (resolver_refused (rt := reference_runtime) 3 refused_with_body_run []
                  (Response 404 (Some metadata_ep1)) eq_refl ltac:(cbn; lia))).
Defined.

Lemma initiator_returns_what_the_server_reports_witness :
  initiate_sync (rt := reference_runtime) done_at_once_run (JStr "ep-1") []
  = (Returns (JStr "b1", JStr "success"),
     [Request (refresh_request (rt := reference_runtime) (JStr "ep-1"))]).
Proof.
  exact (initiator_returns_what_the_server_reports
           (rt := reference_runtime) done_at_once_run (JStr "ep-1") []
           (Response 200 (Some (submitted_b1 "success"))) (submitted_b1 "success")
           (JStr "b1") (JStr "success")
           eq_refl eq_refl eq_refl eq_refl eq_refl).
Defined.

Lemma initiator_missing_keys_witness :
  initiate_sync (rt := reference_runtime) no_batch_run (JStr "ep-1") []
  = (Throws (KeyError (JStr "batchId")),
     [Request (refresh_request (rt := reference_runtime) (JStr "ep-1"))]).
Proof.
  exact (proj1 (initiator_missing_keys
                  (rt := reference_runtime) no_batch_run (JStr "ep-1") []
                  (Response 200 (Some (JObj [("progressState", JStr "inProgress")])))
                  [("progressState", JStr "inProgress")]
                  eq_refl eq_refl eq_refl)
               eq_refl).
Defined.

Lemma poller_propagates_first_fault_witness :
  poll_sync_status (rt := reference_runtime) 5 broken_poll_run (JStr "ep-1") (JStr "b1") []
  = (Throws (HTTPError 500),
     [Sleep 1; Request (GET "/v1.0/myorg/lhdatamarts/ep-1/batches/b1");
      Sleep 1; Request (GET "/v1.0/myorg/lhdatamarts/ep-1/batches/b1")]).
Proof.
  refine (poller_propagates_first_fault
            (rt := reference_runtime) broken_poll_run (JStr "ep-1") (JStr "b1") []
            1 (HTTPError 500) _ eq_refl 5%nat ltac:(lia)).
  intros k Hk. destruct k as [|k]; [reflexivity | lia].
Defined.

Lemma report_of_no_table_witness :
  report (rt := reference_runtime) (success_with []) [Sleep 1] = (Returns tt, [Sleep 1]).
Proof.
  exact (report_of_no_table
           (rt := reference_runtime) (success_with []) (JStr "success")
           (JArr [operation_with (JArr [])]) (operation_with (JArr []))
           (JObj [("tablesSyncStatus", JArr [])]) (JArr []) [Sleep 1]
           eq_refl eq_refl eq_refl eq_refl eq_refl eq_refl eq_refl).
Defined.

Lemma report_is_all_or_nothing_witness :
  report (rt := reference_runtime) (success_with [orders; orders_never_synced; orders]) []
  = (Throws (ValueError "Invalid isoformat string" "N/A+00:00"), []).
Proof.
  refine (report_is_all_or_nothing
            (rt := reference_runtime) [orders] [orders] orders_never_synced
            [TableDetail (JStr "Orders") "2024-01-01 11:00:00 CET"
                         (JStr "Completed") (JStr "Completed")]
            (ValueError "Invalid isoformat string" "N/A+00:00") [] _ _).
  - constructor; [vm_compute; reflexivity | constructor].
  - reflexivity.
Defined.

Lemma report_prints_one_line_per_table_witness :
  report (rt := reference_runtime) (success_with [orders; orders_null_timestamp]) []
  = (Returns tt,
     [Printed "Table: Orders   Last Update: 2024-01-01 11:00:00 CET  Table Sync State: Completed  SQL Sync State: Completed";
      Printed "Table: Orders   Last Update: N/A  Table Sync State: Completed  SQL Sync State: Completed"]).
Proof.
  refine (proj1 (report_prints_one_line_per_table
                   (rt := reference_runtime) [orders; orders_null_timestamp]
                   [TableDetail (JStr "Orders") "2024-01-01 11:00:00 CET"
                                (JStr "Completed") (JStr "Completed");
                    TableDetail (JStr "Orders") "N/A"
                                (JStr "Completed") (JStr "Completed")] [] _)).
  constructor; [vm_compute; reflexivity|].
  constructor; [reflexivity | constructor].
Defined.


Lemma run_of_a_job_that_did_not_succeed_witness :
  sync_lakehouse (rt := reference_runtime) 5 cancelled_run []
  = (Returns tt,
     [Request (GET "/v1/workspaces/ws/lakehouses/lh");
      Request (refresh_request (rt := reference_runtime) (JStr "ep-1"));
      Sleep 1; Request (GET "/v1.0/myorg/lhdatamarts/ep-1/batches/b1");
      Sleep 1; Request (GET "/v1.0/myorg/lhdatamarts/ep-1/batches/b1");
      Log WARNING "Unexpected state: cancelled"]).
Proof.
  refine (run_of_a_job_that_did_not_succeed
            (rt := reference_runtime) 5 cancelled_run []
            [Request (GET "/v1/workspaces/ws/lakehouses/lh")]
            [Request (GET "/v1/workspaces/ws/lakehouses/lh");
             Request (refresh_request (rt := reference_runtime) (JStr "ep-1"))]
            (JStr "ep-1") (JStr "b1") (JStr "inProgress")
            (status "cancelled") (JStr "cancelled") 1
            eq_refl eq_refl _ eq_refl eq_refl eq_refl ltac:(lia)).
  intros k Hk. destruct k as [|k]; [reflexivity | lia].
Defined.

Lemma run_of_a_job_that_succeeded_witness :
  sync_lakehouse (rt := reference_runtime) 5 orders_run []
  = (Returns tt,
     [Request (GET "/v1/workspaces/ws/lakehouses/lh");
      Request (refresh_request (rt := reference_runtime) (JStr "ep-1"));
      Sleep 1; Request (GET "/v1.0/myorg/lhdatamarts/ep-1/batches/b1");
      Sleep 1; Request (GET "/v1.0/myorg/lhdatamarts/ep-1/batches/b1");
      Printed "Table: Orders   Last Update: 2024-01-01 11:00:00 CET  Table Sync State: Completed  SQL Sync State: Completed"]).
Proof.
  refine (run_of_a_job_that_succeeded
            (rt := reference_runtime) 5 orders_run []
            [Request (GET "/v1/workspaces/ws/lakehouses/lh")]
            [Request (GET "/v1/workspaces/ws/lakehouses/lh");
             Request (refresh_request (rt := reference_runtime) (JStr "ep-1"))]
            (JStr "ep-1") (JStr "b1") (JStr "inProgress")
            (success_with [orders]) (JStr "success") 1
            eq_refl eq_refl _ eq_refl eq_refl ltac:(lia)).
  intros k Hk. destruct k as [|k]; [reflexivity | lia].
Defined.
